(** * eblu: Bluetooth device list, search and lifecycle handlers

    A shallow embedding of the Raycast command [Command] (the fuller of the
    two near-identical sources): the fuzzy search ([fuzzySearch],
    [fuzzyMatch]), the refresh of the paired-device list
    ([refreshDevices]), the displayed list ([filteredDevices]), the
    connection toggle ([toggleConnection]), the discovery scan
    ([startDiscovery]) and the rendered list ([Command]).

    Conventions of the model.
    - JavaScript strings are [string]s; [undefined] in an optional field is
      [None].
    - React state cells are the fields of [State]; a handler reads the
      cells of the render it was created in and writes through the setters.
    - Everything a handler does to the outside (commands run, toasts,
      console output, timers) is appended to a trace of [Event]s; what the
      outside answers (the outcome of a command) is an argument of the
      handler.
    - A JavaScript exception is the [inl] result of a computation in the
      monad [M]; state written before the throw stays written. *)

From Stdlib Require Import List String Ascii ZArith Bool Lia Permutation Sorted.
From Stdlib Require Import DecimalString OrdersEx.
Import ListNotations.
Local Open Scope string_scope.
Local Open Scope Z_scope.

(** ** Strings as the host gives them *)

Module JsString.

(** [c.toLowerCase()] on one character of the ASCII range. *)
Definition lower_ascii (c : ascii) : ascii :=
  let n := nat_of_ascii c in
  if (Nat.leb 65 n && Nat.leb n 90)%bool then ascii_of_nat (n + 32) else c.

(** [s.toLowerCase()]. The model's strings are sequences of 8-bit
    characters, on which lowercasing maps [A]..[Z] to [a]..[z] and keeps
    every other character. *)
Fixpoint toLowerCase (s : string) : string :=
  match s with
  | EmptyString => EmptyString
  | String c r => String (lower_ascii c) (toLowerCase r)
  end.

(** [s.split(sep)] for a one-character separator: the pieces between
    consecutive separators, empty pieces included; the empty string
    splits into one empty piece. *)
Fixpoint split (sep : ascii) (s : string) : list string :=
  match s with
  | EmptyString => [EmptyString]
  | String c r =>
      if Ascii.eqb c sep then EmptyString :: split sep r
      else match split sep r with
           | piece :: pieces => String c piece :: pieces
           | [] => [String c EmptyString]
           end
  end.

(** Truthiness of a string: every string but the empty one. *)
Definition truthy (s : string) : bool :=
  match s with EmptyString => false | String _ _ => true end.

(** Truthiness of an optional string field ([undefined] is falsy). *)
Definition truthy_opt (o : option string) : bool :=
  match o with Some s => truthy s | None => false end.

(** [o || dflt] for an optional string. *)
Definition or_else (o : option string) (dflt : string) : string :=
  match o with
  | Some s => if truthy s then s else dflt
  | None => dflt
  end.

(** A value inside a template literal: [undefined] prints as the word. *)
Definition template (o : option string) : string :=
  match o with Some s => s | None => "undefined" end.

(** The double quote character, as a string. *)
Definition quote : string := String (ascii_of_nat 34) EmptyString.

(** [n.toString()] for an integer. *)
Definition of_Z (z : Z) : string := NilZero.string_of_int (Z.to_int z).

(** [l.join(sep)]. *)
Fixpoint join (sep : string) (l : list string) : string :=
  match l with
  | [] => EmptyString
  | [s] => s
  | s :: rest => s ++ sep ++ join sep rest
  end.

(** The characters the host counts as white space, in the ASCII range:
    tab, line feed, vertical tab, form feed, carriage return, space. *)
Definition is_whitespace (c : ascii) : bool :=
  let n := nat_of_ascii c in
  ((Nat.leb 9 n && Nat.leb n 13) || Nat.eqb n 32)%bool.

End JsString.

(** ** Data model *)

(** [interface BluetoothDevice]. The address is optional in the model
    because the refresh copies [device_address] unchecked. *)
Record BluetoothDevice : Type := mkDevice {
  name : string;
  address : option string;
  connected : bool;
  lastConnected : option Z;
  type : option string;
  batteryLevel : option string;
  rssi : option string;
  vendorId : option string;
  productId : option string;
  firmwareVersion : option string
}.

(** [interface Preferences]. *)
Record Preferences : Type := mkPreferences { maxDevices : Z }.

(** ** Fuzzy search *)

(** [text[i] === pattern[j]] on two characters read by index ([None] is
    [undefined], out of range). *)
Definition char_eq (a b : option ascii) : bool :=
  match a, b with
  | Some x, Some y => Ascii.eqb x y
  | None, None => true
  | _, _ => false
  end.

(** The [for] loop of [fuzzyMatch], from the indices [i] and [j]; the
    result is the final [j]. Every round advances [i], so [text.length]
    rounds of fuel reach the exit test. *)
Fixpoint fuzzyMatch_loop (fuel : nat) (text pattern : string) (i j : nat)
  : nat :=
  match fuel with
  | O => j
  | S fuel' =>
      if ((i <? String.length text) && (j <? String.length pattern))%nat%bool
      then fuzzyMatch_loop fuel' text pattern (S i)
             (if char_eq (String.get i text) (String.get j pattern)
              then S j else j)
      else j
  end.

(** [fuzzyMatch(text, pattern)]: [j === pattern.length] after the loop. *)
Definition fuzzyMatch (text pattern : string) : bool :=
  Nat.eqb (fuzzyMatch_loop (String.length text) text pattern 0 0)
          (String.length pattern).

(** [fuzzySearch(device, searchText)]. *)
Definition fuzzySearch (device : BluetoothDevice) (searchText : string) : bool :=
  let searchLower := JsString.toLowerCase searchText in
  let nameLower := JsString.toLowerCase (name device) in
  let typeLower := JsString.toLowerCase (JsString.or_else (type device) "") in
  let searchTerms := JsString.split " " searchLower in
  forallb
    (fun term =>
       let matchesName := fuzzyMatch nameLower term in
       let matchesType := fuzzyMatch typeLower term in
       (matchesName || matchesType)%bool)
    searchTerms.

(** ** What the two data sources return *)

(** The value of one entry of [RawBluetoothDeviceData]. [device_address]
    is declared mandatory, but the parsed JSON is not checked against the
    declaration, so the model lets it be absent like the other members. *)
Record RawDeviceData : Type := mkRaw {
  device_address : option string;
  device_minorType : option string;
  device_batteryLevelMain : option string;
  device_rssi : option string;
  device_vendorID : option string;
  device_productID : option string;
  device_firmwareVersion : option string
}.

(** [interface RawBluetoothDeviceData]: an object from device names to
    their data, as the list of its entries in [Object.keys] order (keys are
    pairwise distinct). *)
Definition RawBluetoothDeviceData : Type := list (string * RawDeviceData).

(** [Object.keys(device)]. *)
Definition Object_keys (device : RawBluetoothDeviceData) : list string :=
  map fst device.

(** [device[key]]; [None] is [undefined]. *)
Fixpoint get_entry (device : RawBluetoothDeviceData) (key : string)
  : option RawDeviceData :=
  match device with
  | [] => None
  | (k, v) :: rest => if String.eqb k key then Some v else get_entry rest key
  end.

(** One element of the [SPBluetoothDataType] array: the two groups, each
    possibly absent. *)
Record BluetoothSection : Type := mkSection {
  device_connected : option (list RawBluetoothDeviceData);
  device_not_connected : option (list RawBluetoothDeviceData)
}.

(** The parsed output of [system_profiler SPBluetoothDataType -json], seen
    at the types the refresh reads it at. Every place where the code
    tolerates a missing or null member is an [option]. *)
Inductive ProfilerData : Type :=
| DataNull
| DataObject (SPBluetoothDataType : option (list (option BluetoothSection))).

(** One record of the [blueutil --inquiry] output. *)
Module Inquiry.
Record record : Type := mk {
  address : option string;
  name : option string;
  rssi : option Z
}.
End Inquiry.

(** The text a command printed, seen through [JSON.parse]. *)
Inductive Output (A : Type) : Type :=
| NotJson
| Json (value : A).
Arguments NotJson {A}.
Arguments Json {A} value.

(** What [execSync] does with a command: it throws or it returns. *)
Inductive Outcome (O : Type) : Type :=
| Fails
| Returns (output : O).
Arguments Fails {O}.
Arguments Returns {O} output.

(** ** State, events and the handler monad *)

(** The cells of [useState]. *)
Record State : Type := mkState {
  allDevices : list BluetoothDevice;
  searchText : string;
  blueutilPath : string;
  isScanning : bool;
  discoveredDevices : list BluetoothDevice
}.

Inductive ToastStyle : Type := Animated | Success | Failure.

(** The functions handed to [setTimeout]. *)
Inductive Callback : Type := CbRefreshDevices.

Inductive Event : Type :=
| ExecSync (cmd : string)
| ConsoleError (msg : string)
| ShowToast (style : ToastStyle) (msg : string)
| ConfirmAlert (title message : string)
| SetTimeout (callback : Callback) (ms : Z).

Inductive Exn : Type :=
| Error (msg : string)
| TypeError
| SyntaxError
| CommandError.

(** A handler run: from the cells and the trace so far to a result or an
    exception, the cells and the trace after. *)
Definition M (A : Type) : Type :=
  State -> list Event -> (Exn + A) * State * list Event.

Definition ret {A} (a : A) : M A := fun s t => (inr a, s, t).

Definition bind {A B} (m : M A) (k : A -> M B) : M B :=
  fun s t =>
    match m s t with
    | (inr a, s', t') => k a s' t'
    | (inl e, s', t') => (inl e, s', t')
    end.

Definition throw {A} (e : Exn) : M A := fun s t => (inl e, s, t).

(** [try { body } catch (error) { handler }]. *)
Definition try_catch {A} (body : M A) (handler : Exn -> M A) : M A :=
  fun s t =>
    match body s t with
    | (inr a, s', t') => (inr a, s', t')
    | (inl e, s', t') => handler e s' t'
    end.

(** A pure computation that may throw, run inside a handler. *)
Definition lift {A} (r : Exn + A) : M A := fun s t => (r, s, t).

Definition get : M State := fun s t => (inr s, s, t).
Definition modify (f : State -> State) : M unit := fun s t => (inr tt, f s, t).
Definition emit (e : Event) : M unit :=
  fun s t => (inr tt, s, (t ++ [e])%list).

Declare Scope js_scope.
Delimit Scope js_scope with js.
Notation "x <- m ;; k" := (bind m (fun x => k))
  (at level 61, m at next level, right associativity) : js_scope.
Notation "m ;; k" := (bind m (fun _ => k))
  (at level 61, right associativity) : js_scope.
Local Open Scope js_scope.

(** The setters. *)
Definition setAllDevices (v : list BluetoothDevice) : M unit :=
  modify (fun s => mkState v (searchText s) (blueutilPath s) (isScanning s)
                           (discoveredDevices s)).
Definition setSearchText (v : string) : M unit :=
  modify (fun s => mkState (allDevices s) v (blueutilPath s) (isScanning s)
                           (discoveredDevices s)).
Definition setBlueutilPath (v : string) : M unit :=
  modify (fun s => mkState (allDevices s) (searchText s) v (isScanning s)
                           (discoveredDevices s)).
Definition setIsScanning (v : bool) : M unit :=
  modify (fun s => mkState (allDevices s) (searchText s) (blueutilPath s) v
                           (discoveredDevices s)).
(** [setDiscoveredDevices] takes an updater, [fun _ => v] for a value. *)
Definition setDiscoveredDevices
  (f : list BluetoothDevice -> list BluetoothDevice) : M unit :=
  modify (fun s => mkState (allDevices s) (searchText s) (blueutilPath s)
                           (isScanning s) (f (discoveredDevices s))).

(** The host calls. *)
Definition execSync {O} (cmd : string) (outcome : Outcome O) : M O :=
  emit (ExecSync cmd) ;;
  match outcome with
  | Fails => throw CommandError
  | Returns output => ret output
  end.

Definition JSON_parse {A} (output : Output A) : M A :=
  match output with
  | NotJson => throw SyntaxError
  | Json value => ret value
  end.

Definition console_error (msg : string) : M unit := emit (ConsoleError msg).
Definition showToast (style : ToastStyle) (msg : string) : M unit :=
  emit (ShowToast style msg).
Definition setTimeout (callback : Callback) (ms : Z) : M unit :=
  emit (SetTimeout callback ms).

(** Run a handler from given cells with an empty trace. *)
Definition run {A} (m : M A) (s : State) : (Exn + A) * State * list Event :=
  m s [].
Definition state_after {A} (m : M A) (s : State) : State := snd (fst (run m s)).
Definition events_of {A} (m : M A) (s : State) : list Event := snd (run m s).

(** ** Arrays *)

Module JsArray.

(** [l.slice(0, e)]: a negative [e] counts from the end, and the bounds
    are clamped to the array. *)
Definition slice0 {A} (l : list A) (e : Z) : list A :=
  let len := Z.of_nat (List.length l) in
  let final := if e <? 0 then Z.max (len + e) 0 else Z.min e len in
  firstn (Z.to_nat final) l.

(** [l.sort(cmp)]. The language fixes the result for a consistent
    comparator: the permutation in ascending order that keeps elements
    comparing equal in their original order. Insertion from the right
    computes it: each element goes in front of the first element of the
    sorted rest that it does not come after. *)
Fixpoint insert {A} (cmp : A -> A -> Z) (x : A) (l : list A) : list A :=
  match l with
  | [] => [x]
  | y :: rest => if cmp x y <=? 0 then x :: l else y :: insert cmp x rest
  end.

Definition sort {A} (cmp : A -> A -> Z) (l : list A) : list A :=
  fold_right (insert cmp) [] l.

(** [l.map(f)] for a callback that may throw: the first exception ends
    the map. The callback also gets the index. *)
Fixpoint mapi_exn {A B} (f : nat -> A -> Exn + B) (i : nat) (l : list A)
  : Exn + list B :=
  match l with
  | [] => inr []
  | x :: rest =>
      match f i x with
      | inl e => inl e
      | inr y =>
          match mapi_exn f (S i) rest with
          | inl e => inl e
          | inr ys => inr (y :: ys)
          end
      end
  end.

(** [l.includes(x)] on optional strings (SameValueZero is equality
    there). *)
Definition includes (l : list (option string)) (x : option string) : bool :=
  existsb (fun y => match x, y with
                    | Some a, Some b => String.eqb a b
                    | None, None => true
                    | _, _ => false
                    end) l.

End JsArray.

(** [a !== b] on optional strings. *)
Definition strict_neq (a b : option string) : bool :=
  negb (JsArray.includes [b] a).

(** ** Refresh of the known devices *)

(** [data?.SPBluetoothDataType[0]]. A null [data] short-circuits the chain
    to [undefined]; an object without the member makes [undefined[0]]
    throw; an empty array has no element 0. *)
Definition first_section (data : ProfilerData) : Exn + option BluetoothSection :=
  match data with
  | DataNull => inr None
  | DataObject None => inl TypeError
  | DataObject (Some []) => inr None
  | DataObject (Some (section :: _)) => inr section
  end.

(** [section?.member || []]. *)
Definition group_or_empty
  (member : BluetoothSection -> option (list RawBluetoothDeviceData))
  (section : option BluetoothSection) : list RawBluetoothDeviceData :=
  match section with
  | None => []
  | Some sec => match member sec with None => [] | Some records => records end
  end.

(** The callback of [connectedDevices.map]. [const [name] =
    Object.keys(device)] takes the first key; a record without entries
    leaves [name] and [device[name]] undefined, and reading
    [device_address] of [undefined] throws. [now] is [new Date()]. *)
Definition connectedDevice (now : Z) (device : RawBluetoothDeviceData)
  : Exn + BluetoothDevice :=
  match Object_keys device with
  | [] => inl TypeError
  | name :: _ =>
      match get_entry device name with
      | None => inl TypeError
      | Some deviceData =>
          inr {| name := name;
                 address := device_address deviceData;
                 connected := true;
                 type := device_minorType deviceData;
                 batteryLevel := device_batteryLevelMain deviceData;
                 rssi := device_rssi deviceData;
                 vendorId := device_vendorID deviceData;
                 productId := device_productID deviceData;
                 firmwareVersion := device_firmwareVersion deviceData;
                 lastConnected := Some now |}
      end
  end.

(** The callback of [disconnectedDevices.map]. *)
Definition disconnectedDevice (device : RawBluetoothDeviceData)
  : Exn + BluetoothDevice :=
  match Object_keys device with
  | [] => inl TypeError
  | name :: _ =>
      match get_entry device name with
      | None => inl TypeError
      | Some deviceData =>
          inr {| name := name;
                 address := device_address deviceData;
                 connected := false;
                 type := device_minorType deviceData;
                 batteryLevel := device_batteryLevelMain deviceData;
                 lastConnected := None;
                 rssi := device_rssi deviceData;
                 vendorId := device_vendorID deviceData;
                 productId := device_productID deviceData;
                 firmwareVersion := device_firmwareVersion deviceData |}
      end
  end.

(** The array literal [[...connectedDevices.map(..), ...disconnectedDevices
    .map(..)]] of a parsed document; [clock i] is the [new Date()] of the
    [i]-th connected record. *)
Definition normalizeAll (clock : nat -> Z) (data : ProfilerData)
  : Exn + list BluetoothDevice :=
  match first_section data with
  | inl e => inl e
  | inr section =>
      let connectedDevices := group_or_empty device_connected section in
      let disconnectedDevices := group_or_empty device_not_connected section in
      match JsArray.mapi_exn (fun i => connectedDevice (clock i)) 0%nat
                             connectedDevices with
      | inl e => inl e
      | inr cs =>
          match JsArray.mapi_exn (fun _ => disconnectedDevice) 0%nat
                                 disconnectedDevices with
          | inl e => inl e
          | inr ds => inr (cs ++ ds)%list
          end
      end
  end.

Definition profiler_command : string :=
  "/usr/sbin/system_profiler SPBluetoothDataType -json".

Definition fetch_error : string := "Error fetching bluetooth devices:".

Section Host.

(** [a.localeCompare(b)]: the collation of the host, not part of the
    program. *)
Variable localeCompare : string -> string -> Z.

(** The comparator given to [allDevices.sort]. *)
Definition compareDevices (a b : BluetoothDevice) : Z :=
  if negb (Bool.eqb (connected a) (connected b))
  then (if connected a then -1 else 1)
  else localeCompare (name a) (name b).

(** [refreshDevices()]. *)
Definition refreshDevices (clock : nat -> Z)
  (source : Outcome (Output ProfilerData)) : M unit :=
  try_catch
    (output <- execSync profiler_command source ;;
     data <- JSON_parse output ;;
     allDevices <- lift (normalizeAll clock data) ;;
     let sortedDevices := JsArray.sort compareDevices allDevices in
     setAllDevices sortedDevices)
    (fun error => console_error fetch_error).

(** [forgetDevice(address, name)], with [addr] and [label] for the two
    arguments; [confirmed] is the answer to [confirmAlert]. *)
Definition forgetDevice (addr : option string) (label : string)
  (confirmed : bool) (unpair : Outcome unit)
  (clock : nat -> Z) (source : Outcome (Output ProfilerData)) : M unit :=
  emit (ConfirmAlert "Forget Device"
          ("Are you sure you want to forget " ++ JsString.quote ++ label
             ++ JsString.quote ++ "?")) ;;
  if confirmed then
    try_catch
      (execSync ("blueutil --unpair " ++ JsString.template addr) unpair ;;
       showToast Success "Device forgotten" ;;
       refreshDevices clock source)
      (fun error => showToast Failure "Failed to forget device")
  else ret tt.

(** [pairDevice(address, name)]. *)
Definition pairDevice (addr : option string) (label : string)
  (pair : Outcome unit)
  (clock : nat -> Z) (source : Outcome (Output ProfilerData)) : M unit :=
  try_catch
    (s <- get ;;
     showToast Animated ("Pairing with " ++ label ++ "...") ;;
     execSync (blueutilPath s ++ " --pair " ++ JsString.template addr) pair ;;
     refreshDevices clock source ;;
     setDiscoveredDevices
       (fun prev => filter (fun d => strict_neq (address d) addr) prev) ;;
     showToast Success ("Paired with " ++ label))
    (fun error => showToast Failure ("Failed to pair with " ++ label)).

End Host.

(** ** The displayed list *)

(** [filteredDevices], recomputed at every render from the cells and the
    preference. [slice] takes the preference through the language's
    conversion to an integer; the record holds that integer. *)
Definition filteredDevices (prefs : Preferences) (s : State)
  : list BluetoothDevice :=
  if JsString.truthy (searchText s)
  then filter (fun device => fuzzySearch device (searchText s)) (allDevices s)
  else JsArray.slice0 (allDevices s) (maxDevices prefs).

(** The [maxDevices] entry of the manifest ([package.json]). *)
Definition manifest_default_maxDevices : Z := 5.
Definition manifest_minimum_maxDevices : Z := 1.
Definition manifest_maximum_maxDevices : Z := 20.

(** ** Connection toggle *)

(** [toggleConnection(address, isConnected)], with [addr] for the address;
    [control] is what [execSync] does with the control command. *)
Definition toggleConnection (addr : option string) (isConnected : bool)
  (control : Outcome unit) : M unit :=
  try_catch
    (s <- get ;;
     (if negb (JsString.truthy (blueutilPath s))
      then throw (Error "blueutil path not set") else ret tt) ;;
     let action := if isConnected then "--disconnect" else "--connect" in
     execSync (blueutilPath s ++ " " ++ action ++ " " ++ JsString.template addr)
              control ;;
     setTimeout CbRefreshDevices 1000)
    (fun error => console_error "Error toggling connection:").

(** ** Discovery scan *)

(** The callback of [.map] in [startDiscovery]. *)
Definition discoveredDevice (device : Inquiry.record) : BluetoothDevice :=
  {| name := JsString.or_else (Inquiry.name device) "Unknown Device";
     address := Inquiry.address device;
     connected := false;
     type := Some "New Device";
     rssi := option_map JsString.of_Z (Inquiry.rssi device);
     lastConnected := None;
     batteryLevel := None;
     vendorId := None;
     productId := None;
     firmwareVersion := None |}.

(** The command of the scan. *)
Definition inquiry_command (s : State) : string :=
  blueutilPath s ++ " --inquiry 10 --format json".

(** [startDiscovery()]; [scan] is what the inquiry command does. *)
Definition startDiscovery (scan : Outcome (Output (list Inquiry.record)))
  : M unit :=
  try_catch
    (s <- get ;;
     (if negb (JsString.truthy (blueutilPath s))
      then throw (Error "blueutil not found") else ret tt) ;;
     setIsScanning true ;;
     showToast Animated "Scanning for devices..." ;;
     let existingAddresses := map address (allDevices s) in
     output <- execSync (inquiry_command s) scan ;;
     parsed <- JSON_parse output ;;
     let discovered :=
       map discoveredDevice
           (filter (fun device =>
                      negb (JsArray.includes existingAddresses
                                             (Inquiry.address device)))
                   parsed) in
     setDiscoveredDevices (fun _ => discovered) ;;
     setIsScanning false ;;
     showToast Success
       ("Found " ++ JsString.of_Z (Z.of_nat (List.length discovered))
                 ++ " new devices"))
    (fun error =>
       setIsScanning false ;;
       showToast Failure "Failed to scan for devices" ;;
       console_error "Discovery error:").

(** ** The rendered list *)

Inductive Icon : Type :=
| IconBluetooth | IconCircleFilled | IconCircle | IconLink
| IconRotateClockwise | IconMagnifyingGlass | IconMinusCircle
| IconPlusCircle | IconTrash.

(** What an [onAction] closure will call. *)
Inductive Handler : Type :=
| OnPairDevice (addr : option string) (label : string)
| OnRefreshDevices
| OnStartDiscovery
| OnToggleConnection (addr : option string) (isConnected : bool)
| OnForgetDevice (addr : option string) (label : string).

Record ActionItem : Type := mkAction {
  action_title : string;
  action_icon : Icon;
  onAction : Handler
}.

Record ListItem : Type := mkItem {
  key : option string;
  title : string;
  subtitle : string;
  icon : Icon;
  accessory_text : option string;
  actions : list ActionItem
}.

Record ListSection : Type := mkListSection {
  section_title : string;
  items : list ListItem
}.

Record ListView : Type := mkView {
  isLoading : bool;
  view_searchText : string;
  filtering : bool;
  sections : list ListSection
}.

(** The [List.Item] of a discovered device. *)
Definition discoveredItem (device : BluetoothDevice) : ListItem :=
  {| key := address device;
     title := name device;
     subtitle := "Available to pair";
     icon := IconBluetooth;
     accessory_text :=
       if JsString.truthy_opt (rssi device)
       then Some ("Signal: " ++ JsString.template (rssi device) ++ "dBm")
       else None;
     actions := [mkAction "Pair Device" IconLink
                          (OnPairDevice (address device) (name device))] |}.

(** [[...].filter(Boolean)] on texts that may be [null]. *)
Definition filter_Boolean (l : list (option string)) : list string :=
  flat_map (fun o => match o with
                     | Some t => if JsString.truthy t then [t] else []
                     | None => []
                     end) l.

(** The [List.Item] of a paired device. *)
Definition pairedItem (device : BluetoothDevice) : ListItem :=
  {| key := address device;
     title := name device;
     subtitle := JsString.or_else (type device) "Unknown Device";
     icon := if connected device then IconCircleFilled else IconCircle;
     accessory_text :=
       Some (JsString.join " • "
         (filter_Boolean
            [Some (if connected device then "Connected" else "Disconnected");
             if JsString.truthy_opt (batteryLevel device)
             then Some ("Battery: " ++ JsString.template (batteryLevel device))
             else None;
             if JsString.truthy_opt (rssi device)
             then Some ("Signal: " ++ JsString.template (rssi device) ++ "dBm")
             else None;
             if JsString.truthy_opt (firmwareVersion device)
             then Some ("FW: " ++ JsString.template (firmwareVersion device))
             else None]));
     actions :=
       [mkAction "Refresh Devices" IconRotateClockwise OnRefreshDevices;
        mkAction "Scan for Devices" IconMagnifyingGlass OnStartDiscovery;
        mkAction (if connected device then "Disconnect" else "Connect")
                 (if connected device then IconMinusCircle else IconPlusCircle)
                 (OnToggleConnection (address device) (connected device));
        mkAction "Forget Device" IconTrash
                 (OnForgetDevice (address device) (name device))] |}.

(** What [Command] returns at a render. The section of discovered devices
    is present when the list is not empty. *)
Definition Command (prefs : Preferences) (s : State) : ListView :=
  {| isLoading := isScanning s;
     view_searchText := searchText s;
     filtering := false;
     sections :=
       ((if (0 <? List.length (discoveredDevices s))%nat
         then [mkListSection "Discovered Devices"
                             (map discoveredItem (discoveredDevices s))]
         else [])
        ++ [mkListSection "Paired Devices"
                          (map pairedItem (filteredDevices prefs s))])%list |}.

(** The items shown under a section title (none when the section is not
    rendered). *)
Definition items_under (sectionTitle : string) (v : ListView) : list ListItem :=
  flat_map (fun sec => if String.eqb (section_title sec) sectionTitle
                       then items sec else [])
           (sections v).

(** ** Notions the properties are stated with *)

(** How far a left-to-right walk over [text] gets in [pattern] when it
    takes every character of [text] equal to the next one wanted. *)
Fixpoint advance (text pattern : string) {struct text} : nat :=
  match pattern with
  | EmptyString => 0%nat
  | String p ps =>
      match text with
      | EmptyString => 0%nat
      | String t ts =>
          if Ascii.eqb t p then S (advance ts ps) else advance ts pattern
      end
  end.

(** The same walk, answering whether it gets through all of [pattern]. *)
Fixpoint scan (text pattern : string) {struct text} : bool :=
  match pattern with
  | EmptyString => true
  | String p ps =>
      match text with
      | EmptyString => false
      | String t ts => if Ascii.eqb t p then scan ts ps else scan ts pattern
      end
  end.

(** [pattern] is a subsequence of [text]: its characters occur in [text]
    in order, not necessarily next to each other. *)
Inductive Subsequence : string -> string -> Prop :=
| Subsequence_empty : forall text, Subsequence EmptyString text
| Subsequence_take : forall c pattern text,
    Subsequence pattern text ->
    Subsequence (String c pattern) (String c text)
| Subsequence_skip : forall c pattern text,
    Subsequence pattern text ->
    Subsequence pattern (String c text).

(** A term matches a device when it is a subsequence of the lowercased name
    or of the lowercased type (an absent type counts as empty). *)
Definition term_matches (device : BluetoothDevice) (term : string) : Prop :=
  Subsequence term (JsString.toLowerCase (name device)) \/
  Subsequence term
    (JsString.toLowerCase (JsString.or_else (type device) "")).

(** The pieces of [s] between separator characters, empty pieces
    included. *)
Fixpoint pieces (is_sep : ascii -> bool) (s : string) : list string :=
  match s with
  | EmptyString => [EmptyString]
  | String c r =>
      if is_sep c then EmptyString :: pieces is_sep r
      else match pieces is_sep r with
           | piece :: rest => String c piece :: rest
           | [] => [String c EmptyString]
           end
  end.

(** The whitespace-separated terms of a query: the non-empty runs of
    characters between white space. *)
Definition whitespace_terms (q : string) : list string :=
  filter JsString.truthy (pieces JsString.is_whitespace q).

(** The search as the specification words it: every whitespace-separated
    term of the lowercased query matches the name or the type. *)
Definition matches_spec (device : BluetoothDevice) (q : string) : Prop :=
  forall term, In term (whitespace_terms (JsString.toLowerCase q)) ->
               term_matches device term.

(** Every white-space character of [s] is the plain space. *)
Fixpoint only_spaces (s : string) : bool :=
  match s with
  | EmptyString => true
  | String c r =>
      (implb (JsString.is_whitespace c) (Ascii.eqb c " ") && only_spaces r)%bool
  end.

(** No two entries with equal address. *)
Definition unique_addresses (l : list BluetoothDevice) : Prop :=
  NoDup (map address l).

(** The address a source record carries: that of its first entry. *)
Definition record_address (device : RawBluetoothDeviceData) : option string :=
  match device with
  | [] => None
  | (_, deviceData) :: _ => device_address deviceData
  end.

(** The records of both groups of a parsed document, connected first (none
    where the document has no section or no group). *)
Definition source_records (data : ProfilerData) : list RawBluetoothDeviceData :=
  match first_section data with
  | inl _ => []
  | inr section =>
      (group_or_empty device_connected section
       ++ group_or_empty device_not_connected section)%list
  end.


(** A handler logged an error to the console. *)
Definition logs_error (t : list Event) : bool :=
  existsb (fun e => match e with ConsoleError _ => true | _ => false end) t.

(** The commands a handler ran. *)
Definition commands (t : list Event) : list string :=
  flat_map (fun e => match e with ExecSync cmd => [cmd] | _ => [] end) t.

(** The timers a handler set. *)
Definition timers (t : list Event) : list (Callback * Z) :=
  flat_map (fun e => match e with SetTimeout cb ms => [(cb, ms)] | _ => [] end) t.

(** The toasts a handler showed. *)
Definition toasts (t : list Event) : list (ToastStyle * string) :=
  flat_map (fun e => match e with ShowToast st msg => [(st, msg)] | _ => [] end) t.

(** The parsed document lacks the expected structure: it is null, or has
    no [SPBluetoothDataType] member, or that array has no first element, or
    the first element is null. (A section without one of the two groups is
    what the profiler prints when the group is empty, and is not counted
    here.) *)
Definition missing_structure (data : ProfilerData) : bool :=
  match data with
  | DataNull => true
  | DataObject None => true
  | DataObject (Some []) => true
  | DataObject (Some (None :: _)) => true
  | DataObject (Some (Some _ :: _)) => false
  end.

(** The refresh went through: nothing was logged to the console. *)
Definition succeeded {A} (m : M A) (s : State) : Prop :=
  logs_error (events_of m s) = false.

(** The cells with the scanning flag set to [b]. *)
Definition with_scanning (b : bool) (s : State) : State :=
  mkState (allDevices s) (searchText s) (blueutilPath s) b
          (discoveredDevices s).

(** ** A host collation to run the model with *)

Module AsciiHost.

(** Compares the lowercased strings character by character. *)
Definition localeCompare (a b : string) : Z :=
  match String_as_OT.compare (JsString.toLowerCase a) (JsString.toLowerCase b) with
  | Lt => -1
  | Eq => 0
  | Gt => 1
  end.

End AsciiHost.

(** ** Start-up *)

Module JsTrim.

(** [s.trimStart()]: without the white space in front. *)
Fixpoint trimStart (s : string) : string :=
  match s with
  | EmptyString => EmptyString
  | String c r => if JsString.is_whitespace c then trimStart r else s
  end.

(** [s.trimEnd()]: without the white space at the end. *)
Fixpoint trimEnd (s : string) : string :=
  match s with
  | EmptyString => EmptyString
  | String c r =>
      match trimEnd r with
      | EmptyString =>
          if JsString.is_whitespace c then EmptyString else String c EmptyString
      | String c' r' => String c (String c' r')
      end
  end.

(** [s.trim()]. *)
Definition trim (s : string) : string := trimEnd (trimStart s).

End JsTrim.

Definition which_command : string := "command -v blueutil".

Definition mount_error : string :=
  "Error: blueutil not found. Install with: brew install blueutil".

Section Mount.

Variable localeCompare : string -> string -> Z.

(** The effect run once when the command is mounted ([useEffect] with no
    dependencies); [which] is what the shell does with [command -v
    blueutil] (run with a fixed [PATH], which the trace does not record),
    its output being the text printed. *)
Definition mountEffect (which : Outcome string) (clock : nat -> Z)
  (source : Outcome (Output ProfilerData)) : M unit :=
  try_catch
    (output <- execSync which_command which ;;
     let path := JsTrim.trim output in
     (if negb (JsString.truthy path)
      then throw (Error "blueutil not found") else ret tt) ;;
     setBlueutilPath path ;;
     refreshDevices localeCompare clock source)
    (fun error => console_error mount_error).

End Mount.

(** ** The earlier version of the command *)

(** [src/eb.tsx] has the same search, display and toggle code; its devices
    have no signal, vendor, product and firmware fields, which read as
    [undefined] and are [None] here. *)
Module Eb.

Definition connectedDevice (now : Z) (device : RawBluetoothDeviceData)
  : Exn + BluetoothDevice :=
  match Object_keys device with
  | [] => inl TypeError
  | name :: _ =>
      match get_entry device name with
      | None => inl TypeError
      | Some deviceData =>
          inr {| name := name;
                 address := device_address deviceData;
                 connected := true;
                 type := device_minorType deviceData;
                 batteryLevel := device_batteryLevelMain deviceData;
                 lastConnected := Some now;
                 rssi := None;
                 vendorId := None;
                 productId := None;
                 firmwareVersion := None |}
      end
  end.

Definition disconnectedDevice (device : RawBluetoothDeviceData)
  : Exn + BluetoothDevice :=
  match Object_keys device with
  | [] => inl TypeError
  | name :: _ =>
      match get_entry device name with
      | None => inl TypeError
      | Some deviceData =>
          inr {| name := name;
                 address := device_address deviceData;
                 connected := false;
                 type := device_minorType deviceData;
                 batteryLevel := device_batteryLevelMain deviceData;
                 lastConnected := None;
                 rssi := None;
                 vendorId := None;
                 productId := None;
                 firmwareVersion := None |}
      end
  end.

Definition normalizeAll (clock : nat -> Z) (data : ProfilerData)
  : Exn + list BluetoothDevice :=
  match first_section data with
  | inl e => inl e
  | inr section =>
      let connectedDevices := group_or_empty device_connected section in
      let disconnectedDevices := group_or_empty device_not_connected section in
      match JsArray.mapi_exn (fun i => connectedDevice (clock i)) 0%nat
                             connectedDevices with
      | inl e => inl e
      | inr cs =>
          match JsArray.mapi_exn (fun _ => disconnectedDevice) 0%nat
                                 disconnectedDevices with
          | inl e => inl e
          | inr ds => inr (cs ++ ds)%list
          end
      end
  end.

(** [refreshDevices()] of the earlier version. *)
Definition refreshDevices (localeCompare : string -> string -> Z)
  (clock : nat -> Z) (source : Outcome (Output ProfilerData)) : M unit :=
  try_catch
    (output <- execSync profiler_command source ;;
     data <- JSON_parse output ;;
     allDevices <- lift (normalizeAll clock data) ;;
     let sortedDevices :=
       JsArray.sort (compareDevices localeCompare) allDevices in
     setAllDevices sortedDevices)
    (fun error => console_error fetch_error).

End Eb.

(** ** More notions *)

(** [l] is [m] with some elements left out, the others in their order. *)
Inductive Sublist {A : Type} : list A -> list A -> Prop :=
| Sublist_nil : Sublist [] []
| Sublist_keep : forall x l m, Sublist l m -> Sublist (x :: l) (x :: m)
| Sublist_drop : forall x l m, Sublist l m -> Sublist l (x :: m).

(** A string of [n] spaces. *)
Fixpoint spaces (n : nat) : string :=
  match n with
  | O => EmptyString
  | S k => String " " (spaces k)
  end.

(** A device seen with the fields of the earlier version only. *)
Definition earlier_fields (d : BluetoothDevice) : BluetoothDevice :=
  mkDevice (name d) (address d) (connected d) (lastConnected d) (type d)
           (batteryLevel d) None None None None.

(** An optional text with the empty text counted as absent. *)
Definition absent_if_empty (o : option string) : option string :=
  match o with
  | Some EmptyString => None
  | _ => o
  end.

(** A device with its empty type, battery level, signal and firmware texts
    taken as absent. *)
Definition without_empty_fields (d : BluetoothDevice) : BluetoothDevice :=
  mkDevice (name d) (address d) (connected d) (lastConnected d)
           (absent_if_empty (type d)) (absent_if_empty (batteryLevel d))
           (absent_if_empty (rssi d)) (vendorId d) (productId d)
           (absent_if_empty (firmwareVersion d)).

(** The command [pairDevice] runs. *)
Definition pair_command (s : State) (addr : option string) : string :=
  blueutilPath s ++ " --pair " ++ JsString.template addr.

(** The command [forgetDevice] runs. *)
Definition unpair_command (addr : option string) : string :=
  "blueutil --unpair " ++ JsString.template addr.

(** The first and the last character of a string. *)
Definition first_char (s : string) : option ascii := String.get 0 s.

Fixpoint last_char (s : string) : option ascii :=
  match s with
  | EmptyString => None
  | String c EmptyString => Some c
  | String _ r => last_char r
  end.

(** [s] neither starts nor ends with white space. *)
Definition no_outer_whitespace (s : string) : Prop :=
  (forall c, first_char s = Some c -> JsString.is_whitespace c = false) /\
  (forall c, last_char s = Some c -> JsString.is_whitespace c = false).

(** The cells with the known devices replaced. *)
Definition with_allDevices (v : list BluetoothDevice) (s : State) : State :=
  mkState v (searchText s) (blueutilPath s) (isScanning s)
          (discoveredDevices s).

(** The cells with the discovered devices replaced. *)
Definition with_discovered (v : list BluetoothDevice) (s : State) : State :=
  mkState (allDevices s) (searchText s) (blueutilPath s) (isScanning s) v.

(** The cells with the path of the tool replaced. *)
Definition with_path (v : string) (s : State) : State :=
  mkState (allDevices s) (searchText s) v (isScanning s)
          (discoveredDevices s).

(** ** Order and content of the known list *)








(** ** Sessions *)

(** What can happen after start-up, each with what the outside answers:
    typing in the search bar, the refresh action (also the timer set by the
    toggle, when it fires), and the four other actions of the panel. *)
Inductive Action : Type :=
| OnSearchTextChange (q : string)
| RefreshAction (clock : nat -> Z) (source : Outcome (Output ProfilerData))
| ToggleAction (addr : option string) (isConnected : bool)
    (control : Outcome unit)
| ForgetAction (addr : option string) (label : string) (confirmed : bool)
    (unpair : Outcome unit) (clock : nat -> Z)
    (source : Outcome (Output ProfilerData))
| ScanAction (scan : Outcome (Output (list Inquiry.record)))
| PairAction (addr : option string) (label : string) (pairing : Outcome unit)
    (clock : nat -> Z) (source : Outcome (Output ProfilerData)).

(** The cells of the first render. *)
Definition initial_cells : State := mkState [] "" "" false [].

Section Session.

Variable localeCompare : string -> string -> Z.

(** The handler an action runs. Handlers run one at a time, each to its
    end: none of them yields while a command is running. *)
Definition handler (a : Action) : M unit :=
  match a with
  | OnSearchTextChange q => setSearchText q
  | RefreshAction clock source => refreshDevices localeCompare clock source
  | ToggleAction addr isConnected control =>
      toggleConnection addr isConnected control
  | ForgetAction addr label confirmed unpair clock source =>
      forgetDevice localeCompare addr label confirmed unpair clock source
  | ScanAction scan => startDiscovery scan
  | PairAction addr label pairing clock source =>
      pairDevice localeCompare addr label pairing clock source
  end.

(** The cells after a list of actions, from given cells. *)
Fixpoint after_actions (acts : list Action) (s : State) : State :=
  match acts with
  | [] => s
  | a :: rest => after_actions rest (state_after (handler a) s)
  end.

(** The cells of a session: start-up from the first render, then the
    actions. *)
Definition session_cells (which : Outcome string) (clock : nat -> Z)
  (source : Outcome (Output ProfilerData)) (acts : list Action) : State :=
  after_actions acts
    (state_after (mountEffect localeCompare which clock source) initial_cells).

End Session.

(** ** Sample inputs *)

Module Sample.

Definition tab : string := String (ascii_of_nat 9) EmptyString.

(** A device with a name only. *)
Definition named (n : string) (addr : option string) (conn : bool)
  : BluetoothDevice :=
  mkDevice n addr conn None None None None None None None.

Definition dev_ab : BluetoothDevice := named "ab" (Some "AA:BB") false.

(** The query [a<TAB>b]. *)
Definition query_tab : string := "a" ++ tab ++ "b".

Definition bose : BluetoothDevice :=
  mkDevice "Bose QC35" (Some "AA:BB") true None (Some "Headphones")
           None None None None None.

Definition raw (addr : option string) (minorType : option string)
  : RawDeviceData :=
  mkRaw addr minorType None None None None None.

(** [{"Bose QC35": {device_address: "AA:BB", device_minorType:
    "Headphones"}}] and [{"Keyboard": {device_address: "CC:DD"}}]. *)
Definition rec_bose : RawBluetoothDeviceData :=
  [("Bose QC35", raw (Some "AA:BB") (Some "Headphones"))].
Definition rec_keyboard : RawBluetoothDeviceData :=
  [("Keyboard", raw (Some "CC:DD") None)].

(** [{"Mouse": {}}]: a named entry without an address. *)
Definition rec_no_address : RawBluetoothDeviceData :=
  [("Mouse", raw None None)].

(** [{"SPBluetoothDataType": [{device_connected: cs, device_not_connected:
    ds}]}]. *)
Definition doc (cs ds : list RawBluetoothDeviceData) : ProfilerData :=
  DataObject (Some [Some (mkSection (Some cs) (Some ds))]).

(** [{"SPBluetoothDataType": []}]. *)
Definition doc_no_section : ProfilerData := DataObject (Some []).

(** The scenario of the specification: the headphones connected, the
    keyboard not. *)
Definition doc_scenario : ProfilerData := doc [rec_bose] [rec_keyboard].

(** The same record in both groups. *)
Definition doc_duplicate : ProfilerData := doc [rec_bose] [rec_bose].

(** A batch with a record that lacks an address. *)
Definition doc_no_address : ProfilerData :=
  doc [rec_bose] [rec_no_address; rec_keyboard].

(** Names that differ in case, out of order in the source. *)
Definition doc_case : ProfilerData :=
  doc [[("speaker", raw (Some "01") None)]; [("Mouse", raw (Some "02") None)]]
      [[("trackpad", raw (Some "03") None)]; [("Keyboard", raw (Some "04") None)]].

(** A control or scan command answering with parsed output. *)
Definition answers {A} (value : A) : Outcome (Output A) := Returns (Json value).

Definition clock0 (i : nat) : Z := 1700000000000 + Z.of_nat i.

Definition path : string := "/opt/homebrew/bin/blueutil".

(** Cells after start-up, with one known device. *)
Definition state_bose : State := mkState [bose] "" path false [].

(** The same cells while the scanning flag is set. *)
Definition state_scanning : State := mkState [bose] "" path true [].

Definition found (addr : string) (n : option string) (signal : option Z)
  : Inquiry.record :=
  Inquiry.mk (Some addr) n signal.

(** A scan answering with the known address and a new one. *)
Definition scan_two : Outcome (Output (list Inquiry.record)) :=
  Returns (Json [found "AA:BB" (Some "Bose QC35") (Some (-40));
                 found "EE:FF" None (Some (-71))]).

End Sample.

(** * Properties *)

(** ** Strings *)

Example toLowerCase_sample : JsString.toLowerCase "Bose QC35" = "bose qc35".
Proof. reflexivity. Qed.

Example split_sample : JsString.split " " "a  b" = ["a"; ""; "b"].
Proof. reflexivity. Qed.

Example split_empty : JsString.split " " "" = [""].
Proof. reflexivity. Qed.

Example of_Z_sample : JsString.of_Z (-45) = "-45" /\ JsString.of_Z 0 = "0".
Proof. split; reflexivity. Qed.

Lemma lower_ascii_whitespace c :
  JsString.is_whitespace (JsString.lower_ascii c) = JsString.is_whitespace c.
Proof. destruct c as [[] [] [] [] [] [] [] []]; reflexivity. Qed.

Lemma lower_ascii_space c :
  Ascii.eqb (JsString.lower_ascii c) " " = Ascii.eqb c " ".
Proof. destruct c as [[] [] [] [] [] [] [] []]; reflexivity. Qed.

Lemma lower_ascii_idem c :
  JsString.lower_ascii (JsString.lower_ascii c) = JsString.lower_ascii c.
Proof. destruct c as [[] [] [] [] [] [] [] []]; reflexivity. Qed.

Lemma toLowerCase_idem s :
  JsString.toLowerCase (JsString.toLowerCase s) = JsString.toLowerCase s.
Proof. induction s; simpl; [reflexivity|]. now rewrite lower_ascii_idem, IHs. Qed.

Lemma only_spaces_toLowerCase s :
  only_spaces (JsString.toLowerCase s) = only_spaces s.
Proof.
  induction s as [|c r IH]; simpl; [reflexivity|].
  now rewrite lower_ascii_whitespace, lower_ascii_space, IH.
Qed.

(** On a string whose only white space is the plain space, splitting at
    spaces and splitting at white space give the same pieces. *)
Lemma split_pieces s :
  only_spaces s = true ->
  JsString.split " " s = pieces JsString.is_whitespace s.
Proof.
  induction s as [|c r IH]; simpl; [reflexivity|].
  intros H. apply andb_true_iff in H. destruct H as [Hc Hr].
  rewrite (IH Hr).
  destruct (JsString.is_whitespace c) eqn:Ew; simpl in Hc.
  - now rewrite Hc.
  - destruct (Ascii.eqb c " ") eqn:Es; [|reflexivity].
    apply Ascii.eqb_eq in Es. subst c. discriminate Ew.
Qed.

(** ** Fuzzy search *)

Section FuzzyMatch.

Lemma length_append a b :
  String.length (a ++ b) = (String.length a + String.length b)%nat.
Proof. induction a as [|c a IH]; simpl; [reflexivity | now rewrite IH]. Qed.

Lemma get_append_here a c b :
  String.get (String.length a) (a ++ String c b) = Some c.
Proof. induction a as [|x a IH]; simpl; [reflexivity | exact IH]. Qed.

Lemma append_snoc a c b : (a ++ String c EmptyString) ++ b = a ++ String c b.
Proof. induction a as [|x a IH]; simpl; [reflexivity | now rewrite IH]. Qed.

Lemma length_snoc a c :
  String.length (a ++ String c EmptyString) = S (String.length a).
Proof. rewrite length_append. simpl. lia. Qed.

Lemma advance_empty_text pattern : advance "" pattern = 0%nat.
Proof. now destruct pattern. Qed.

Lemma advance_empty_pattern text : advance text "" = 0%nat.
Proof. now destruct text. Qed.

(** The loop, started after the prefixes [pt] and [pp] with enough fuel for
    the rest of the text, ends where the walk over the rest ends. *)
Lemma fuzzyMatch_loop_advance text :
  forall pattern pt pp fuel,
    (String.length text <= fuel)%nat ->
    fuzzyMatch_loop fuel (pt ++ text) (pp ++ pattern)
                    (String.length pt) (String.length pp) =
    (String.length pp + advance text pattern)%nat.
Proof.
  induction text as [|c ts IH]; intros pattern pt pp fuel Hfuel.
  - rewrite advance_empty_text, Nat.add_0_r.
    destruct fuel as [|fuel]; simpl; [reflexivity|].
    rewrite length_append. simpl.
    replace (String.length pt <? String.length pt + 0)%nat with false; [reflexivity|].
    symmetry. apply Nat.ltb_ge. lia.
  - destruct fuel as [|fuel]; simpl in Hfuel; [lia|].
    cbn [fuzzyMatch_loop]. rewrite !length_append.
    replace (String.length pt <? String.length pt + String.length (String c ts))%nat
      with true by (symmetry; apply Nat.ltb_lt; simpl; lia).
    destruct pattern as [|p ps].
    + rewrite advance_empty_pattern. simpl.
      replace (String.length pp <? String.length pp + 0)%nat with false; [lia|].
      symmetry. apply Nat.ltb_ge. lia.
    + replace (String.length pp <? String.length pp + String.length (String p ps))%nat
        with true by (symmetry; apply Nat.ltb_lt; simpl; lia).
      cbn [andb]. rewrite !get_append_here. cbn [char_eq advance].
      destruct (Ascii.eqb c p).
      * rewrite <- (append_snoc pt c ts), <- (append_snoc pp p ps),
          <- (length_snoc pt c), <- (length_snoc pp p).
        rewrite IH by lia. rewrite length_snoc. lia.
      * rewrite <- (append_snoc pt c ts), <- (length_snoc pt c).
        rewrite IH by lia. reflexivity.
Qed.

Lemma scan_advance text :
  forall pattern,
    scan text pattern = Nat.eqb (advance text pattern) (String.length pattern).
Proof.
  induction text as [|t ts IH]; intros [|p ps]; simpl; try reflexivity.
  destruct (Ascii.eqb t p); [apply IH | apply (IH (String p ps))].
Qed.

(** The loop over indices is the walk over the two strings; in particular
    the fuel given to it is enough. *)
Lemma fuzzyMatch_scan text pattern : fuzzyMatch text pattern = scan text pattern.
Proof.
  unfold fuzzyMatch. rewrite scan_advance.
  pose proof (fuzzyMatch_loop_advance text pattern "" "" (String.length text)
                (Nat.le_refl _)) as H.
  simpl in H. now rewrite H.
Qed.

Lemma scan_empty text : scan text "" = true.
Proof. destruct text; reflexivity. Qed.

(** The walk finds a match only where there is one. *)
Lemma scan_sound text :
  forall pattern, scan text pattern = true -> Subsequence pattern text.
Proof.
  induction text as [|t ts IH]; intros [|p ps] H; simpl in H;
    try (now constructor); try discriminate.
  destruct (Ascii.eqb_spec t p) as [->|_].
  - apply Subsequence_take. now apply IH.
  - apply Subsequence_skip. now apply IH.
Qed.

Lemma scan_longer_text ts :
  (forall p ps, scan ts (String p ps) = true -> scan ts ps = true) ->
  forall c pattern, scan ts pattern = true -> scan (String c ts) pattern = true.
Proof.
  intros Htail c [|q qs] H; [reflexivity|]. simpl.
  destruct (Ascii.eqb c q); [now apply Htail with q | exact H].
Qed.

Lemma scan_shorter_pattern text :
  forall p ps, scan text (String p ps) = true -> scan text ps = true.
Proof.
  induction text as [|c ts IH]; intros p ps H; simpl in H; [discriminate|].
  apply scan_longer_text; [exact IH|].
  destruct (Ascii.eqb c p); [exact H | now apply IH with p].
Qed.

(** Taking the first equal character never loses a match. *)
Lemma scan_complete pattern text :
  Subsequence pattern text -> scan text pattern = true.
Proof.
  induction 1 as [text | c pattern text _ IH | c pattern text _ IH].
  - apply scan_empty.
  - simpl. now rewrite Ascii.eqb_refl.
  - apply scan_longer_text; [apply scan_shorter_pattern | exact IH].
Qed.

Lemma fuzzyMatch_iff text pattern :
  fuzzyMatch text pattern = true <-> Subsequence pattern text.
Proof.
  rewrite fuzzyMatch_scan. split; [apply scan_sound | apply scan_complete].
Qed.

Lemma fuzzyMatch_empty text : fuzzyMatch text "" = true.
Proof. rewrite fuzzyMatch_scan. apply scan_empty. Qed.

End FuzzyMatch.

Lemma fuzzySearch_terms device q :
  fuzzySearch device q = true <->
  forall term, In term (JsString.split " " (JsString.toLowerCase q)) ->
               term_matches device term.
Proof.
  unfold fuzzySearch, term_matches. rewrite forallb_forall.
  split; intros H term Hin; specialize (H term Hin).
  - apply orb_true_iff in H. now rewrite <- !fuzzyMatch_iff.
  - apply orb_true_iff. now rewrite !fuzzyMatch_iff.
Qed.

(** C5, as the code has it: the empty query matches every device, and a
    query matches a device exactly when every term of the lowercased query,
    cut at each single space character, is a subsequence of the lowercased
    name or of the lowercased type (an absent type counting as empty). Other
    white space is not a separator, and the empty terms that adjacent
    spaces produce match trivially. *)
Theorem fuzzySearch_space_terms (device : BluetoothDevice) (q : string) :
  fuzzySearch device "" = true /\
  (fuzzySearch device q = true <->
   forall term, In term (JsString.split " " (JsString.toLowerCase q)) ->
                term_matches device term).
Proof.
  split; [|apply fuzzySearch_terms].
  unfold fuzzySearch. simpl. now rewrite fuzzyMatch_empty.
Qed.

(** Where the query has no white space other than plain spaces, the code
    agrees with the wording on whitespace-separated terms. *)
Lemma fuzzySearch_whitespace_terms device q :
  only_spaces q = true ->
  (fuzzySearch device q = true <-> matches_spec device q).
Proof.
  intros Hq. rewrite fuzzySearch_terms. unfold matches_spec, whitespace_terms.
  rewrite split_pieces by now rewrite only_spaces_toLowerCase.
  split; intros H term Hin.
  - apply filter_In in Hin. now apply H.
  - destruct term as [|c r].
    + left. constructor.
    + apply H. apply filter_In. now split.
Qed.

(** C5 as worded fails on a query with a tab: the wording cuts [a<TAB>b]
    into the terms [a] and [b], both subsequences of the name [ab], while
    the code keeps the single term [a<TAB>b], which is not. *)
Lemma fuzzySearch_tab_not_separator :
  ~ (fuzzySearch Sample.dev_ab Sample.query_tab = true <->
     matches_spec Sample.dev_ab Sample.query_tab).
Proof.
  intros [_ H].
  assert (Hs : matches_spec Sample.dev_ab Sample.query_tab).
  { intros term Hin. vm_compute in Hin.
    destruct Hin as [<-|[<-|[]]]; left; vm_compute.
    - apply Subsequence_take, Subsequence_empty.
    - apply Subsequence_skip, Subsequence_take, Subsequence_empty. }
  specialize (H Hs). vm_compute in H. discriminate H.
Qed.

Example fuzzySearch_bq : fuzzySearch Sample.bose "bq" = true.
Proof. reflexivity. Qed.

Example fuzzySearch_xq : fuzzySearch Sample.bose "xq" = false.
Proof. reflexivity. Qed.

Example fuzzySearch_by_type : fuzzySearch Sample.bose "HEAD bose" = true.
Proof. reflexivity. Qed.

(** ** Sorting *)

Section Sort.

Context {A : Type} (cmp : A -> A -> Z).

Lemma insert_perm x l : Permutation (JsArray.insert cmp x l) (x :: l).
Proof.
  induction l as [|y rest IH]; simpl; [reflexivity|].
  destruct (cmp x y <=? 0); [reflexivity|].
  rewrite IH. apply perm_swap.
Qed.

Lemma sort_perm l : Permutation (JsArray.sort cmp l) l.
Proof.
  induction l as [|x rest IH]; simpl; [reflexivity|].
  unfold JsArray.sort in *. simpl. rewrite insert_perm. now constructor.
Qed.

Lemma sort_length l : List.length (JsArray.sort cmp l) = List.length l.
Proof. apply Permutation_length, sort_perm. Qed.

(** A function the comparator does not see through commutes with the
    sort. *)
Lemma sort_map (f : A -> A) l :
  (forall a b, cmp (f a) (f b) = cmp a b) ->
  JsArray.sort cmp (map f l) = map f (JsArray.sort cmp l).
Proof.
  intros Hf. unfold JsArray.sort.
  induction l as [|x rest IH]; simpl; [reflexivity|]. rewrite IH.
  generalize (fold_right (JsArray.insert cmp) [] rest). intros sorted.
  induction sorted as [|y ys IHs]; simpl; [reflexivity|].
  rewrite Hf. destruct (cmp x y <=? 0); simpl; [reflexivity|]. now rewrite IHs.
Qed.

(** The comparator is consistent: of two elements one does not come after
    the other, and not coming after is transitive. *)
Hypothesis cmp_total : forall a b, 0 < cmp a b -> cmp b a <= 0.
Hypothesis cmp_trans : forall a b c, cmp a b <= 0 -> cmp b c <= 0 -> cmp a c <= 0.

Lemma insert_sorted x l :
  StronglySorted (fun a b => cmp a b <= 0) l ->
  StronglySorted (fun a b => cmp a b <= 0) (JsArray.insert cmp x l).
Proof.
  induction 1 as [|y rest Hs IH Hy]; simpl.
  - repeat constructor.
  - destruct (Z.leb_spec (cmp x y) 0) as [Hle|Hgt].
    + constructor; [now constructor|].
      constructor; [exact Hle|].
      eapply Forall_impl; [|exact Hy]. intros z Hz. now apply cmp_trans with y.
    + constructor; [exact IH|].
      rewrite insert_perm. constructor; [now apply cmp_total | exact Hy].
Qed.

Lemma sort_sorted l :
  StronglySorted (fun a b => cmp a b <= 0) (JsArray.sort cmp l).
Proof.
  induction l as [|x rest IH]; simpl; [constructor|].
  now apply insert_sorted.
Qed.

End Sort.

Lemma StronglySorted_impl {A} (R S : A -> A -> Prop) l :
  (forall a b, R a b -> S a b) -> StronglySorted R l -> StronglySorted S l.
Proof.
  intros HRS. induction 1 as [|x rest _ IH Hx]; constructor; [exact IH|].
  eapply Forall_impl; [|exact Hx]. intros b. apply HRS.
Qed.

(** ** Normalization of the source records *)

Lemma mapi_exn_map {A B C} (f : nat -> A -> Exn + B) (g : B -> C) (h : A -> C) :
  (forall i x y, f i x = inr y -> g y = h x) ->
  forall l i ys, JsArray.mapi_exn f i l = inr ys -> map g ys = map h l.
Proof.
  intros Hf. induction l as [|x rest IH]; intros i ys H; simpl in H.
  - now inversion H.
  - destruct (f i x) as [e|y] eqn:Ex; [discriminate|].
    destruct (JsArray.mapi_exn f (S i) rest) as [e|ys'] eqn:Er; [discriminate|].
    inversion H; subst. simpl. f_equal; [now apply Hf with i | now apply IH with (S i)].
Qed.

Lemma mapi_exn_throws {A B} (f : nat -> A -> Exn + B) :
  forall l i x, In x l -> (forall j, exists e, f j x = inl e) ->
                exists e, JsArray.mapi_exn f i l = inl e.
Proof.
  induction l as [|y rest IH]; intros i x Hin Hx; [destruct Hin|].
  simpl. destruct (f i y) as [e|b] eqn:Ey; [now eexists|].
  destruct Hin as [->|Hin].
  - destruct (Hx i) as [e He]. congruence.
  - destruct (IH (S i) x Hin Hx) as [e ->]. now eexists.
Qed.

Lemma connectedDevice_entry now n deviceData rest :
  connectedDevice now ((n, deviceData) :: rest) =
  inr (mkDevice n (device_address deviceData) true (Some now)
                (device_minorType deviceData)
                (device_batteryLevelMain deviceData) (device_rssi deviceData)
                (device_vendorID deviceData) (device_productID deviceData)
                (device_firmwareVersion deviceData)).
Proof. unfold connectedDevice. simpl. now rewrite String.eqb_refl. Qed.

Lemma disconnectedDevice_entry n deviceData rest :
  disconnectedDevice ((n, deviceData) :: rest) =
  inr (mkDevice n (device_address deviceData) false None
                (device_minorType deviceData)
                (device_batteryLevelMain deviceData) (device_rssi deviceData)
                (device_vendorID deviceData) (device_productID deviceData)
                (device_firmwareVersion deviceData)).
Proof. unfold disconnectedDevice. simpl. now rewrite String.eqb_refl. Qed.

Lemma connectedDevice_address now device d :
  connectedDevice now device = inr d -> address d = record_address device.
Proof.
  destruct device as [|[n deviceData] rest]; [discriminate|].
  rewrite connectedDevice_entry. now intros [= <-].
Qed.

Lemma disconnectedDevice_address device d :
  disconnectedDevice device = inr d -> address d = record_address device.
Proof.
  destruct device as [|[n deviceData] rest]; [discriminate|].
  rewrite disconnectedDevice_entry. now intros [= <-].
Qed.


(** What a successful normalization yields: the devices of the connected
    records followed by those of the disconnected records. *)
Lemma normalizeAll_inr clock data devs :
  normalizeAll clock data = inr devs ->
  exists section cs ds,
    first_section data = inr section /\
    JsArray.mapi_exn (fun i => connectedDevice (clock i)) 0%nat
      (group_or_empty device_connected section) = inr cs /\
    JsArray.mapi_exn (fun _ => disconnectedDevice) 0%nat
      (group_or_empty device_not_connected section) = inr ds /\
    devs = (cs ++ ds)%list.
Proof.
  unfold normalizeAll.
  destruct (first_section data) as [e|section] eqn:Hs; [discriminate|].
  destruct (JsArray.mapi_exn _ _ (group_or_empty device_connected section))
    as [e|cs] eqn:Hc; [discriminate|].
  destruct (JsArray.mapi_exn _ _ (group_or_empty device_not_connected section))
    as [e|ds] eqn:Hd; [discriminate|].
  intros [= <-]. now exists section, cs, ds.
Qed.

Lemma normalizeAll_addresses clock data devs :
  normalizeAll clock data = inr devs ->
  map address devs = map record_address (source_records data).
Proof.
  intros H. destruct (normalizeAll_inr _ _ _ H) as (section & cs & ds & Hs & Hc & Hd & ->).
  unfold source_records. rewrite Hs, !map_app. f_equal.
  - eapply mapi_exn_map; [|exact Hc]. intros i x y. apply connectedDevice_address.
  - eapply mapi_exn_map; [|exact Hd]. intros i x y. apply disconnectedDevice_address.
Qed.

Lemma mapi_exn_In {A B} (f : nat -> A -> Exn + B) :
  forall l i ys x,
    JsArray.mapi_exn f i l = inr ys -> In x l ->
    exists j y, f j x = inr y /\ In y ys.
Proof.
  induction l as [|a rest IH]; intros i ys x H Hin; [destruct Hin|].
  simpl in H. destruct (f i a) as [e|y] eqn:Ea; [discriminate|].
  destruct (JsArray.mapi_exn f (S i) rest) as [e|ys'] eqn:Er; [discriminate|].
  inversion H; subst. destruct Hin as [->|Hin].
  - exists i, y. split; [exact Ea | now left].
  - destruct (IH (S i) ys' x Er Hin) as (j & y' & Hy' & Hin').
    exists j, y'. split; [exact Hy' | now right].
Qed.

(** Every record of the source has its device in a normalization that
    succeeds, under the name and with the address of its first entry. *)
Lemma normalizeAll_keeps clock data devs n deviceData rest :
  normalizeAll clock data = inr devs ->
  In ((n, deviceData) :: rest) (source_records data) ->
  exists d, In d devs /\ name d = n /\ address d = device_address deviceData.
Proof.
  intros H Hin.
  destruct (normalizeAll_inr _ _ _ H) as (section & cs & ds & Hs & Hc & Hd & ->).
  unfold source_records in Hin. rewrite Hs in Hin.
  apply in_app_or in Hin. destruct Hin as [Hin|Hin].
  - destruct (mapi_exn_In _ _ _ _ _ Hc Hin) as (j & d & Ed & Hd').
    rewrite connectedDevice_entry in Ed. inversion Ed; subst.
    eexists. split; [apply in_or_app; left; exact Hd'|]. now split.
  - destruct (mapi_exn_In _ _ _ _ _ Hd Hin) as (j & d & Ed & Hd').
    rewrite disconnectedDevice_entry in Ed. inversion Ed; subst.
    eexists. split; [apply in_or_app; right; exact Hd'|]. now split.
Qed.

Lemma normalizeAll_length clock data devs :
  normalizeAll clock data = inr devs ->
  List.length devs = List.length (source_records data).
Proof.
  intros H. apply normalizeAll_addresses in H.
  now rewrite <- (length_map address), H, length_map.
Qed.



(** ** Refresh *)

Section Refresh.

Variable localeCompare : string -> string -> Z.

Local Notation "'refresh'" := (refreshDevices localeCompare).

(** The refresh in one equation: the command is run; a document that
    normalizes replaces the known devices by its sorted devices; everything
    else leaves the cells alone and logs to the console. *)
Lemma refreshDevices_run clock source s t :
  refresh clock source s t =
  match source with
  | Returns (Json data) =>
      match normalizeAll clock data with
      | inr devs =>
          (inr tt,
           mkState (JsArray.sort (compareDevices localeCompare) devs)
                   (searchText s) (blueutilPath s) (isScanning s)
                   (discoveredDevices s),
           (t ++ [ExecSync profiler_command])%list)
      | inl _ =>
          (inr tt, s,
           (t ++ [ExecSync profiler_command; ConsoleError fetch_error])%list)
      end
  | _ => (inr tt, s,
          (t ++ [ExecSync profiler_command; ConsoleError fetch_error])%list)
  end.
Proof.
  unfold refreshDevices, try_catch, bind, execSync, JSON_parse, lift,
    setAllDevices, modify, console_error, emit, ret, throw.
  destruct source as [|[|data]]; simpl; try (now rewrite <- app_assoc).
  destruct (normalizeAll clock data); simpl; [now rewrite <- app_assoc | reflexivity].
Qed.

Lemma refresh_succeeded_iff clock source s :
  succeeded (refresh clock source) s <->
  exists data devs, source = Returns (Json data) /\
                    normalizeAll clock data = inr devs.
Proof.
  unfold succeeded, events_of, run. rewrite refreshDevices_run.
  destruct source as [|[|data]]; simpl;
    try (split; [discriminate | intros (? & ? & ? & _); discriminate]).
  destruct (normalizeAll clock data) as [e|devs] eqn:E; simpl.
  - split; [discriminate|]. intros (d & ds & [= <-] & H). congruence.
  - split; [|reflexivity]. intros _. now exists data, devs.
Qed.

Lemma refresh_success_state clock data devs s :
  normalizeAll clock data = inr devs ->
  allDevices (state_after (refresh clock (Returns (Json data))) s) =
  JsArray.sort (compareDevices localeCompare) devs.
Proof.
  intros H. unfold state_after, run. rewrite refreshDevices_run, H. reflexivity.
Qed.

(** C1, as the code has it: a refresh that succeeds keeps one entry for
    every record of the source output, both groups together, and removes
    nothing: the addresses of the known devices are those of the records,
    each as often as the records carry it. So the known devices have
    pairwise different addresses exactly when the records of the source
    output have. *)
Theorem refresh_unique_addresses clock source s :
  succeeded (refresh clock source) s ->
  exists data,
    source = Returns (Json data) /\
    Permutation
      (map address (allDevices (state_after (refresh clock source) s)))
      (map record_address (source_records data)) /\
    List.length (allDevices (state_after (refresh clock source) s)) =
      List.length (source_records data) /\
    (unique_addresses (allDevices (state_after (refresh clock source) s)) <->
     NoDup (map record_address (source_records data))).
Proof.
  intros H. apply refresh_succeeded_iff in H. destruct H as (data & devs & -> & H).
  exists data. split; [reflexivity|].
  rewrite (refresh_success_state _ _ _ _ H). unfold unique_addresses.
  rewrite sort_length, (normalizeAll_length _ _ _ H).
  rewrite <- (normalizeAll_addresses _ _ _ H).
  pose proof (Permutation_map address (sort_perm (compareDevices localeCompare) devs)) as P.
  split; [exact P|]. split; [reflexivity|].
  split; intros N.
  - exact (Permutation_NoDup P N).
  - exact (Permutation_NoDup (Permutation_sym P) N).
Qed.

(** C4, as the code has it: a record whose named entry lacks an address is
    not rejected. Either callback returns a device with that name and an
    absent address, and a refresh that succeeds on a batch holding the
    record lists such a device among the known devices. *)
Theorem missing_address_is_kept now n deviceData rest :
  device_address deviceData = None ->
  (exists d, connectedDevice now ((n, deviceData) :: rest) = inr d /\
             name d = n /\ address d = None /\ connected d = true) /\
  (exists d, disconnectedDevice ((n, deviceData) :: rest) = inr d /\
             name d = n /\ address d = None /\ connected d = false) /\
  forall clock data s,
    In ((n, deviceData) :: rest) (source_records data) ->
    succeeded (refresh clock (Returns (Json data))) s ->
    exists d,
      In d (allDevices (state_after (refresh clock (Returns (Json data))) s)) /\
      name d = n /\ address d = None.
Proof.
  intros Haddr. split; [|split].
  - rewrite connectedDevice_entry. eexists. split; [reflexivity|]. simpl. auto.
  - rewrite disconnectedDevice_entry. eexists. split; [reflexivity|]. simpl. auto.
  - intros clock data s Hin H. apply refresh_succeeded_iff in H.
    destruct H as (data' & devs & [= <-] & H).
    rewrite (refresh_success_state _ _ _ _ H).
    destruct (normalizeAll_keeps _ _ _ _ _ _ H Hin) as (d & Hd & Hn & Ha).
    exists d. split; [|split].
    + eapply Permutation_in; [|exact Hd]. apply Permutation_sym, sort_perm.
    + exact Hn.
    + now rewrite Ha.
Qed.

(** C7, as the code has it: when the source command fails, or its output
    is not JSON, or the parsed document is an object without the
    [SPBluetoothDataType] member, or a record of either group has no named
    entry, the refresh changes no cell and logs one error to the console. *)
Theorem refresh_failure_keeps_state clock source s :
  (source = Fails \/
   source = Returns NotJson \/
   source = Returns (Json (DataObject None)) \/
   exists data, source = Returns (Json data) /\ In [] (source_records data)) ->
  state_after (refresh clock source) s = s /\
  events_of (refresh clock source) s =
    [ExecSync profiler_command; ConsoleError fetch_error].
Proof.
  unfold state_after, events_of, run. rewrite refreshDevices_run.
  intros [->|[->|[->|(data & -> & Hin)]]]; try (split; reflexivity).
  assert (Hthrow : exists e, normalizeAll clock data = inl e).
  { unfold normalizeAll, source_records in *.
    destruct (first_section data) as [e|section]; [now eexists|].
    apply in_app_or in Hin. destruct Hin as [Hin|Hin].
    - destruct (mapi_exn_throws (fun i => connectedDevice (clock i))
                  (group_or_empty device_connected section) 0%nat [] Hin)
        as [e ->]; [|now eexists].
      intros j. now exists TypeError.
    - destruct (JsArray.mapi_exn _ _ (group_or_empty device_connected section));
        [now eexists|].
      destruct (mapi_exn_throws (fun _ => disconnectedDevice)
                  (group_or_empty device_not_connected section) 0%nat [] Hin)
        as [e ->]; [|now eexists].
      intros j. now exists TypeError. }
  destruct Hthrow as [e ->]. split; reflexivity.
Qed.

End Refresh.

(** A document with no section at all is not an error for the refresh: the
    two groups are read as empty and the known devices are replaced by the
    empty list. *)
Lemma refresh_no_section_clears localeCompare clock data s :
  first_section data = inr None ->
  succeeded (refreshDevices localeCompare clock (Returns (Json data))) s /\
  allDevices (state_after (refreshDevices localeCompare clock
                             (Returns (Json data))) s) = [].
Proof.
  intros H.
  assert (N : normalizeAll clock data = inr []).
  { unfold normalizeAll. now rewrite H. }
  split.
  - apply refresh_succeeded_iff. now exists data, [].
  - now rewrite (refresh_success_state _ _ _ _ _ N).
Qed.

(** ** Order of the known devices *)






Section Order.

Variable localeCompare : string -> string -> Z.

(** What is assumed of the host collation: it is a consistent
    comparison. *)
Hypothesis collation_total :
  forall a b, 0 < localeCompare a b -> localeCompare b a <= 0.
Hypothesis collation_trans :
  forall a b c, localeCompare a b <= 0 -> localeCompare b c <= 0 ->
                localeCompare a c <= 0.

Local Notation "'compare'" := (compareDevices localeCompare).

Lemma compareDevices_total a b : 0 < compare a b -> compare b a <= 0.
Proof.
  unfold compareDevices.
  destruct (connected a), (connected b); simpl; try lia; apply collation_total.
Qed.

Lemma compareDevices_trans a b c :
  compare a b <= 0 -> compare b c <= 0 -> compare a c <= 0.
Proof.
  unfold compareDevices.
  destruct (connected a), (connected b), (connected c); simpl; try lia;
    apply collation_trans.
Qed.



End Order.

(** ** The host collation of the samples *)

Lemma AsciiHost_total a b :
  0 < AsciiHost.localeCompare a b -> AsciiHost.localeCompare b a <= 0.
Proof.
  unfold AsciiHost.localeCompare.
  destruct (String_as_OT.compare_spec (JsString.toLowerCase a)
                                      (JsString.toLowerCase b)) as [E|L|G];
    try lia.
  intros _. unfold String_as_OT.lt in G. rewrite G. lia.
Qed.

Lemma AsciiHost_trans a b c :
  AsciiHost.localeCompare a b <= 0 -> AsciiHost.localeCompare b c <= 0 ->
  AsciiHost.localeCompare a c <= 0.
Proof.
  unfold AsciiHost.localeCompare.
  generalize (JsString.toLowerCase a) (JsString.toLowerCase b)
             (JsString.toLowerCase c).
  intros x y z.
  destruct (String_as_OT.compare_spec x y) as [E|L|G]; try lia.
  - change (x = y) in E. subst y. auto.
  - intros _.
    destruct (String_as_OT.compare_spec y z) as [E'|L'|G']; try lia; intros _.
    + change (y = z) in E'. subst z. unfold String_as_OT.lt in L. rewrite L. lia.
    + assert (T : String_as_OT.lt x z) by (etransitivity; eassumption).
      unfold String_as_OT.lt in T. rewrite T. lia.
Qed.


(** ** The refresh on the samples *)

Example refresh_scenario :
  map (fun d => (name d, connected d))
      (allDevices (state_after
         (refreshDevices AsciiHost.localeCompare Sample.clock0
            (Sample.answers Sample.doc_scenario))
         Sample.state_bose)) =
  [("Bose QC35", true); ("Keyboard", false)].
Proof. reflexivity. Qed.

Example refresh_case_order :
  map name
      (allDevices (state_after
         (refreshDevices AsciiHost.localeCompare Sample.clock0
            (Sample.answers Sample.doc_case))
         Sample.state_bose)) =
  ["Mouse"; "speaker"; "Keyboard"; "trackpad"].
Proof. reflexivity. Qed.

(** C1 as worded fails where one address is in both groups: the refresh
    succeeds and the known devices hold the address twice. *)
Lemma refresh_duplicate_address :
  succeeded (refreshDevices AsciiHost.localeCompare Sample.clock0
               (Sample.answers Sample.doc_duplicate)) Sample.state_bose /\
  ~ unique_addresses
      (allDevices (state_after
         (refreshDevices AsciiHost.localeCompare Sample.clock0
            (Sample.answers Sample.doc_duplicate))
         Sample.state_bose)).
Proof.
  split; [reflexivity|]. intros N. vm_compute in N.
  inversion N as [|x l Hnotin _]. apply Hnotin. now left.
Qed.

Lemma refresh_unique_addresses_witness :
  succeeded (refreshDevices AsciiHost.localeCompare Sample.clock0
               (Sample.answers Sample.doc_scenario)) Sample.state_bose /\
  exists data,
    Sample.answers Sample.doc_scenario = Returns (Json data) /\
    Permutation
      (map address (allDevices (state_after
         (refreshDevices AsciiHost.localeCompare Sample.clock0
            (Sample.answers Sample.doc_scenario)) Sample.state_bose)))
      (map record_address (source_records data)) /\
    List.length (allDevices (state_after
       (refreshDevices AsciiHost.localeCompare Sample.clock0
          (Sample.answers Sample.doc_scenario)) Sample.state_bose)) =
      List.length (source_records data) /\
    (unique_addresses (allDevices (state_after
       (refreshDevices AsciiHost.localeCompare Sample.clock0
          (Sample.answers Sample.doc_scenario)) Sample.state_bose)) <->
     NoDup (map record_address (source_records data))).
Proof.
  split; [reflexivity|].
  apply (refresh_unique_addresses AsciiHost.localeCompare Sample.clock0
           (Sample.answers Sample.doc_scenario) Sample.state_bose).
  reflexivity.
Defined.

(** C4 as worded fails on a record with a name and no address: the
    callback returns a device whose address is absent, nothing is thrown,
    and the refresh lists the device with the rest of the batch. *)
Lemma record_without_address_accepted :
  (exists d, disconnectedDevice Sample.rec_no_address = inr d /\
             address d = None) /\
  map (fun d => (name d, address d))
      (allDevices (state_after
         (refreshDevices AsciiHost.localeCompare Sample.clock0
            (Sample.answers Sample.doc_no_address))
         Sample.state_bose)) =
  [("Bose QC35", Some "AA:BB"); ("Keyboard", Some "CC:DD"); ("Mouse", None)].
Proof. split; [eexists; split; reflexivity | reflexivity]. Qed.

Lemma missing_address_is_kept_witness :
  device_address (Sample.raw None None) = None /\
  (exists d, connectedDevice 7 Sample.rec_no_address = inr d /\
             name d = "Mouse" /\ address d = None /\ connected d = true) /\
  (exists d, disconnectedDevice Sample.rec_no_address = inr d /\
             name d = "Mouse" /\ address d = None /\ connected d = false) /\
  forall clock data s,
    In Sample.rec_no_address (source_records data) ->
    succeeded (refreshDevices AsciiHost.localeCompare clock
                 (Returns (Json data))) s ->
    exists d,
      In d (allDevices (state_after
              (refreshDevices AsciiHost.localeCompare clock
                 (Returns (Json data))) s)) /\
      name d = "Mouse" /\ address d = None.
Proof.
  split; [reflexivity|].
  apply (missing_address_is_kept AsciiHost.localeCompare 7 "Mouse"
           (Sample.raw None None) []).
  reflexivity.
Defined.

(** A record with no entry at all throws, and the refresh then keeps the
    cells: the batch is given up as a whole. *)
Example refresh_empty_record_aborts :
  state_after (refreshDevices AsciiHost.localeCompare Sample.clock0
                 (Sample.answers (Sample.doc [Sample.rec_keyboard] [[]])))
              Sample.state_bose = Sample.state_bose.
Proof. reflexivity. Qed.

(** C7 as worded fails on an output that parses but holds no Bluetooth
    section: the refresh logs nothing and replaces the known devices by the
    empty list. *)
Lemma refresh_no_section_replaces :
  missing_structure Sample.doc_no_section = true /\
  allDevices Sample.state_bose = [Sample.bose] /\
  allDevices (state_after
     (refreshDevices AsciiHost.localeCompare Sample.clock0
        (Sample.answers Sample.doc_no_section))
     Sample.state_bose) = [] /\
  logs_error (events_of
     (refreshDevices AsciiHost.localeCompare Sample.clock0
        (Sample.answers Sample.doc_no_section))
     Sample.state_bose) = false.
Proof. repeat split. Qed.

Lemma refresh_failure_keeps_state_witness :
  (@Fails (Output ProfilerData) = Fails \/
   @Fails (Output ProfilerData) = Returns NotJson \/
   @Fails (Output ProfilerData) = Returns (Json (DataObject None)) \/
   exists data, @Fails (Output ProfilerData) = Returns (Json data) /\
                In [] (source_records data)) /\
  state_after (refreshDevices AsciiHost.localeCompare Sample.clock0 Fails)
              Sample.state_bose = Sample.state_bose /\
  events_of (refreshDevices AsciiHost.localeCompare Sample.clock0 Fails)
            Sample.state_bose =
    [ExecSync profiler_command; ConsoleError fetch_error].
Proof.
  split; [now left|].
  apply (refresh_failure_keeps_state AsciiHost.localeCompare Sample.clock0
           Fails Sample.state_bose).
  now left.
Defined.


(** ** The displayed list *)

Lemma slice0_firstn {A} (l : list A) (e : Z) :
  0 <= e -> JsArray.slice0 l e = firstn (Z.to_nat e) l.
Proof.
  intros He. unfold JsArray.slice0.
  destruct (Z.ltb_spec e 0) as [Hneg|_]; [lia|].
  destruct (Z.le_ge_cases e (Z.of_nat (List.length l))) as [Hle|Hge].
  - now rewrite Z.min_l.
  - rewrite Z.min_r by lia. rewrite Nat2Z.id.
    rewrite firstn_all. symmetry. apply firstn_all2. lia.
Qed.

(** C8: with the configured count within the range of the manifest (whose
    default is within it), an empty query shows the known devices cut to
    that count, unfiltered, and a query that is not empty shows every
    device that matches, uncut. *)
Theorem filteredDevices_query (prefs : Preferences) (s : State) :
  manifest_minimum_maxDevices <= maxDevices prefs <= manifest_maximum_maxDevices ->
  (searchText s = "" ->
   filteredDevices prefs s = firstn (Z.to_nat (maxDevices prefs)) (allDevices s)) /\
  (searchText s <> "" ->
   filteredDevices prefs s =
   filter (fun device => fuzzySearch device (searchText s)) (allDevices s)) /\
  manifest_minimum_maxDevices <= manifest_default_maxDevices
    <= manifest_maximum_maxDevices.
Proof.
  unfold manifest_minimum_maxDevices, manifest_maximum_maxDevices,
    manifest_default_maxDevices, filteredDevices.
  intros Hrange. repeat split; try lia.
  - intros ->. simpl. apply slice0_firstn. lia.
  - intros Hq. destruct (searchText s); [contradiction|reflexivity].
Qed.

Lemma filteredDevices_query_witness :
  manifest_minimum_maxDevices <= maxDevices (mkPreferences 5)
    <= manifest_maximum_maxDevices /\
  (searchText Sample.state_bose = "" ->
   filteredDevices (mkPreferences 5) Sample.state_bose =
   firstn (Z.to_nat (maxDevices (mkPreferences 5))) (allDevices Sample.state_bose)) /\
  (searchText Sample.state_bose <> "" ->
   filteredDevices (mkPreferences 5) Sample.state_bose =
   filter (fun device => fuzzySearch device (searchText Sample.state_bose))
          (allDevices Sample.state_bose)) /\
  manifest_minimum_maxDevices <= manifest_default_maxDevices
    <= manifest_maximum_maxDevices.
Proof.
  split; [vm_compute; split; discriminate|].
  apply (filteredDevices_query (mkPreferences 5) Sample.state_bose).
  vm_compute; split; discriminate.
Defined.

Example filteredDevices_truncates :
  map name (filteredDevices (mkPreferences 2)
              (mkState [Sample.named "a" None true; Sample.named "b" None true;
                        Sample.named "c" None false] "" Sample.path false [])) =
  ["a"; "b"].
Proof. reflexivity. Qed.

Example filteredDevices_filters :
  map name (filteredDevices (mkPreferences 1)
              (mkState [Sample.named "ab" None true; Sample.named "b" None true;
                        Sample.named "xaxb" None false] "ab" Sample.path false [])) =
  ["ab"; "xaxb"].
Proof. reflexivity. Qed.

(** ** Connection toggle *)

(** C3, as the code has it: the re-fetch is scheduled, one second ahead,
    exactly when the path of the tool is set and the control command
    returns. When the command throws (or the path is not set) the failure
    is logged to the console and no timer is set. *)
Theorem toggleConnection_timer (addr : option string) (isConnected : bool)
  (control : Outcome unit) (s : State) :
  timers (events_of (toggleConnection addr isConnected control) s) =
    match control with
    | Returns _ =>
        if JsString.truthy (blueutilPath s) then [(CbRefreshDevices, 1000)] else []
    | Fails => []
    end /\
  logs_error (events_of (toggleConnection addr isConnected control) s) =
    match control with
    | Returns _ => negb (JsString.truthy (blueutilPath s))
    | Fails => true
    end /\
  commands (events_of (toggleConnection addr isConnected control) s) =
    (if JsString.truthy (blueutilPath s)
     then [blueutilPath s ++ " "
           ++ (if isConnected then "--disconnect" else "--connect") ++ " "
           ++ JsString.template addr]
     else []) /\
  state_after (toggleConnection addr isConnected control) s = s.
Proof.
  unfold events_of, state_after, run, toggleConnection, try_catch, bind, get,
    execSync, setTimeout, console_error, emit, throw, ret.
  destruct (JsString.truthy (blueutilPath s)), control; simpl; auto.
Qed.

(** C3 as worded fails when the control command throws: the command was
    run, the error is logged, and no re-fetch is scheduled. *)
Lemma toggle_failure_schedules_nothing :
  events_of (toggleConnection (Some "AA:BB") false Fails) Sample.state_bose =
    [ExecSync "/opt/homebrew/bin/blueutil --connect AA:BB";
     ConsoleError "Error toggling connection:"] /\
  timers (events_of (toggleConnection (Some "AA:BB") false Fails)
                    Sample.state_bose) = [].
Proof. split; reflexivity. Qed.

Example toggle_success_schedules :
  events_of (toggleConnection (Some "AA:BB") true (Returns tt)) Sample.state_bose =
    [ExecSync "/opt/homebrew/bin/blueutil --disconnect AA:BB";
     SetTimeout CbRefreshDevices 1000].
Proof. reflexivity. Qed.

(** The sibling handlers re-fetch on success only, too. *)
Example forget_failure_no_refetch :
  commands (events_of
    (forgetDevice AsciiHost.localeCompare (Some "AA:BB") "Bose QC35" true Fails
       Sample.clock0 (Sample.answers Sample.doc_scenario))
    Sample.state_bose) = ["blueutil --unpair AA:BB"].
Proof. reflexivity. Qed.

Example pair_failure_no_refetch :
  commands (events_of
    (pairDevice AsciiHost.localeCompare (Some "EE:FF") "Speaker" Fails
       Sample.clock0 (Sample.answers Sample.doc_scenario))
    Sample.state_bose) = ["/opt/homebrew/bin/blueutil --pair EE:FF"].
Proof. reflexivity. Qed.

(** ** Discovery scan *)

Lemma includes_In l x : JsArray.includes l x = true <-> In x l.
Proof.
  unfold JsArray.includes. rewrite existsb_exists. split.
  - intros (y & Hy & E). destruct x as [a|], y as [b|]; try discriminate.
    + apply String.eqb_eq in E. now subst.
    + exact Hy.
  - intros H. exists x. split; [exact H|].
    destruct x; [apply String.eqb_refl | reflexivity].
Qed.

(** The scan in one equation, when the path of the tool is set. *)
Lemma startDiscovery_run scan s t :
  JsString.truthy (blueutilPath s) = true ->
  startDiscovery scan s t =
  match scan with
  | Returns (Json parsed) =>
      let discovered :=
        map discoveredDevice
            (filter (fun device =>
                       negb (JsArray.includes (map address (allDevices s))
                                              (Inquiry.address device)))
                    parsed) in
      (inr tt,
       mkState (allDevices s) (searchText s) (blueutilPath s) false discovered,
       (t ++ [ShowToast Animated "Scanning for devices...";
              ExecSync (inquiry_command s);
              ShowToast Success
                ("Found " ++ JsString.of_Z (Z.of_nat (List.length discovered))
                          ++ " new devices")])%list)
  | _ =>
      (inr tt,
       mkState (allDevices s) (searchText s) (blueutilPath s) false
               (discoveredDevices s),
       (t ++ [ShowToast Animated "Scanning for devices...";
              ExecSync (inquiry_command s);
              ShowToast Failure "Failed to scan for devices";
              ConsoleError "Discovery error:"])%list)
  end.
Proof.
  intros Hpath.
  unfold startDiscovery, try_catch, bind, get, execSync, JSON_parse,
    setIsScanning, setDiscoveredDevices, modify, showToast, console_error, emit,
    throw, ret.
  rewrite Hpath. destruct scan as [|[|parsed]]; simpl;
    now rewrite <- !app_assoc.
Qed.

(** Without the path of the tool nothing is run. *)
Lemma startDiscovery_no_path scan s t :
  JsString.truthy (blueutilPath s) = false ->
  startDiscovery scan s t =
  (inr tt,
   mkState (allDevices s) (searchText s) (blueutilPath s) false
           (discoveredDevices s),
   (t ++ [ShowToast Failure "Failed to scan for devices";
          ConsoleError "Discovery error:"])%list).
Proof.
  intros Hpath.
  unfold startDiscovery, try_catch, bind, get, setIsScanning, modify, showToast,
    console_error, emit, throw, ret.
  rewrite Hpath. simpl. now rewrite <- !app_assoc.
Qed.

(** The scan does not read the scanning flag: with the path of the tool
    set, a call runs the scan command once whatever the flag holds, and the
    flag is clear when the call returns. *)
Lemma startDiscovery_ignores_flag scan (s : State) (b : bool) :
  JsString.truthy (blueutilPath s) = true ->
  run (startDiscovery scan) (with_scanning b s) = run (startDiscovery scan) s /\
  commands (events_of (startDiscovery scan) (with_scanning true s)) =
    [inquiry_command s] /\
  isScanning (state_after (startDiscovery scan) (with_scanning true s)) = false.
Proof.
  intros Hpath. unfold events_of, state_after, run.
  rewrite !startDiscovery_run by exact Hpath.
  destruct scan as [|[|parsed]]; simpl; auto.
Qed.

(** Two requests one after the other run two scans, the second after the
    first has returned. *)
Example startDiscovery_twice :
  commands (events_of (startDiscovery Sample.scan_two ;;
                       startDiscovery Sample.scan_two) Sample.state_bose) =
  ["/opt/homebrew/bin/blueutil --inquiry 10 --format json";
   "/opt/homebrew/bin/blueutil --inquiry 10 --format json"].
Proof. reflexivity. Qed.

Lemma startDiscovery_succeeded scan s :
  succeeded (startDiscovery scan) s ->
  JsString.truthy (blueutilPath s) = true /\
  exists parsed, scan = Returns (Json parsed).
Proof.
  unfold succeeded, events_of, run. intros H.
  destruct (JsString.truthy (blueutilPath s)) eqn:Hpath.
  - split; [reflexivity|]. rewrite startDiscovery_run in H by exact Hpath.
    destruct scan as [|[|parsed]]; try discriminate H. now exists parsed.
  - rewrite startDiscovery_no_path in H by exact Hpath. discriminate H.
Qed.

(** C9: after a scan that succeeds, no discovered device has an address
    that a known device had when the scan started. *)
Theorem discovered_excludes_known scan (s : State) (d : BluetoothDevice) :
  succeeded (startDiscovery scan) s ->
  In d (discoveredDevices (state_after (startDiscovery scan) s)) ->
  ~ In (address d) (map address (allDevices s)).
Proof.
  intros Hok Hd. destruct (startDiscovery_succeeded _ _ Hok) as (Hpath & parsed & ->).
  unfold state_after, run in Hd. rewrite startDiscovery_run in Hd by exact Hpath.
  simpl in Hd. apply in_map_iff in Hd. destruct Hd as (r & <- & Hr).
  apply filter_In in Hr. destruct Hr as [_ Hr]. apply negb_true_iff in Hr.
  simpl. intros Hin. apply includes_In in Hin. congruence.
Qed.

Lemma discovered_excludes_known_witness :
  succeeded (startDiscovery Sample.scan_two) Sample.state_bose /\
  In (discoveredDevice (Sample.found "EE:FF" None (Some (-71))))
     (discoveredDevices (state_after (startDiscovery Sample.scan_two)
                                     Sample.state_bose)) /\
  ~ In (address (discoveredDevice (Sample.found "EE:FF" None (Some (-71)))))
       (map address (allDevices Sample.state_bose)).
Proof.
  split; [reflexivity|]. split; [now left|].
  apply (discovered_excludes_known Sample.scan_two Sample.state_bose
           (discoveredDevice (Sample.found "EE:FF" None (Some (-71))))).
  - reflexivity.
  - now left.
Defined.

Example startDiscovery_sample :
  discoveredDevices (state_after (startDiscovery Sample.scan_two)
                                 Sample.state_bose) =
  [mkDevice "Unknown Device" (Some "EE:FF") false None (Some "New Device")
            None (Some "-71") None None None].
Proof. reflexivity. Qed.

(** ** The rendered list *)

(** C10: at every render the section of discovered devices holds one item
    for each discovered device, in order, whatever the query and the
    configured count; the search and the cut reach only the paired section,
    and the list's own filtering is off. *)
Theorem discovered_shown_in_full (prefs : Preferences) (s : State) :
  items_under "Discovered Devices" (Command prefs s) =
    map discoveredItem (discoveredDevices s) /\
  items_under "Paired Devices" (Command prefs s) =
    map pairedItem (filteredDevices prefs s) /\
  filtering (Command prefs s) = false /\
  forall prefs' q,
    items_under "Discovered Devices"
      (Command prefs' (mkState (allDevices s) q (blueutilPath s) (isScanning s)
                               (discoveredDevices s))) =
    items_under "Discovered Devices" (Command prefs s).
Proof.
  unfold items_under, Command.
  destruct (discoveredDevices s) as [|d ds]; simpl;
    rewrite ?app_nil_r; repeat split; reflexivity.
Qed.

Example Command_sample :
  map (fun sec => (section_title sec, map title (items sec)))
      (sections (Command (mkPreferences 1)
         (mkState [Sample.bose; Sample.dev_ab] "zzz" Sample.path false
                  [discoveredDevice (Sample.found "EE:FF" None (Some (-71)));
                   discoveredDevice (Sample.found "11:22" (Some "Pen") None)]))) =
  [("Discovered Devices", ["Unknown Device"; "Pen"]); ("Paired Devices", [])].
Proof. reflexivity. Qed.

(** * Further properties *)

(** ** More on the fuzzy search *)

Lemma Subsequence_append_right pattern post :
  Subsequence pattern (pattern ++ post).
Proof.
  induction pattern as [|c p IH]; simpl; [constructor|].
  now apply Subsequence_take.
Qed.

Lemma Subsequence_append_left pre pattern text :
  Subsequence pattern text -> Subsequence pattern (pre ++ text).
Proof.
  intros H. induction pre as [|c pre IH]; simpl; [exact H|].
  now apply Subsequence_skip.
Qed.

Lemma Subsequence_length pattern text :
  Subsequence pattern text ->
  (String.length pattern <= String.length text)%nat.
Proof. induction 1; simpl; lia. Qed.

(** X1: a pattern that occurs in the text as one piece is matched; the
    fuzzy match finds at least what a substring search finds. *)
Theorem fuzzyMatch_substring (pre pattern post : string) :
  fuzzyMatch (pre ++ pattern ++ post) pattern = true.
Proof.
  apply fuzzyMatch_iff, Subsequence_append_left, Subsequence_append_right.
Qed.

(** X2: a pattern that is matched is no longer than the text; a pattern
    longer than the text is never matched. *)
Theorem fuzzyMatch_length (text pattern : string) :
  fuzzyMatch text pattern = true ->
  (String.length pattern <= String.length text)%nat.
Proof. intros H. apply Subsequence_length. now apply fuzzyMatch_iff. Qed.

Lemma fuzzyMatch_length_witness :
  fuzzyMatch "bose qc35" "bq" = true /\
  (String.length "bq" <= String.length "bose qc35")%nat.
Proof.
  split; [reflexivity|]. apply (fuzzyMatch_length "bose qc35" "bq"). reflexivity.
Defined.

Lemma toLowerCase_append a b :
  JsString.toLowerCase (a ++ b) =
  JsString.toLowerCase a ++ JsString.toLowerCase b.
Proof. induction a as [|c a IH]; simpl; [reflexivity | now rewrite IH]. Qed.

Lemma split_cons sep s : exists piece rest, JsString.split sep s = piece :: rest.
Proof.
  destruct s as [|c r]; simpl; [now eexists; eexists|].
  destruct (Ascii.eqb c sep); [now eexists; eexists|].
  destruct (JsString.split sep r); now eexists; eexists.
Qed.

Lemma split_append_sep sep a b :
  JsString.split sep (a ++ String sep b) =
  (JsString.split sep a ++ JsString.split sep b)%list.
Proof.
  induction a as [|c a IH]; simpl.
  - now rewrite Ascii.eqb_refl.
  - rewrite IH. destruct (Ascii.eqb c sep); [reflexivity|].
    destruct (split_cons sep a) as (piece & rest & ->). reflexivity.
Qed.

(** X3: two queries joined by a space match a device exactly when both
    match it: adding a term can only narrow the result. *)
Theorem fuzzySearch_conjunction (device : BluetoothDevice) (q1 q2 : string) :
  fuzzySearch device (q1 ++ " " ++ q2) =
  (fuzzySearch device q1 && fuzzySearch device q2)%bool.
Proof.
  unfold fuzzySearch. rewrite toLowerCase_append. simpl JsString.toLowerCase.
  change (JsString.lower_ascii " ") with " "%char.
  rewrite split_append_sep. apply forallb_app.
Qed.

Lemma toLowerCase_spaces n : JsString.toLowerCase (spaces n) = spaces n.
Proof. induction n as [|n IH]; simpl; [reflexivity|]. now rewrite IH. Qed.

Lemma split_spaces n : JsString.split " " (spaces n) = repeat EmptyString (S n).
Proof. induction n as [|n IH]; simpl; [reflexivity|]. now rewrite IH. Qed.

Lemma fuzzySearch_blank device n : fuzzySearch device (spaces n) = true.
Proof.
  unfold fuzzySearch. rewrite toLowerCase_spaces, split_spaces.
  apply forallb_forall. intros term Hin. apply repeat_spec in Hin. subst term.
  now rewrite fuzzyMatch_empty.
Qed.

(** ** More on the displayed list *)

Lemma Sublist_refl {A} (l : list A) : Sublist l l.
Proof. induction l; constructor; assumption. Qed.

Lemma Sublist_filter {A} (f : A -> bool) (l : list A) : Sublist (filter f l) l.
Proof.
  induction l as [|x l IH]; simpl; [constructor|].
  destruct (f x); constructor; exact IH.
Qed.

Lemma Sublist_nil_l {A} (l : list A) : Sublist [] l.
Proof. induction l; constructor; assumption. Qed.

Lemma Sublist_firstn {A} n (l : list A) : Sublist (firstn n l) l.
Proof.
  revert n. induction l as [|x l IH]; intros [|n]; simpl.
  - constructor.
  - constructor.
  - apply Sublist_nil_l.
  - apply Sublist_keep, IH.
Qed.

Lemma Sublist_Forall {A} (P : A -> Prop) l m :
  Sublist l m -> Forall P m -> Forall P l.
Proof.
  induction 1 as [|x l m _ IH|x l m _ IH]; intros HP.
  - constructor.
  - inversion HP; subst. constructor; auto.
  - inversion HP; subst. auto.
Qed.

Lemma Sublist_StronglySorted {A} (R : A -> A -> Prop) l m :
  Sublist l m -> StronglySorted R m -> StronglySorted R l.
Proof.
  induction 1 as [|x l m Hs IH|x l m Hs IH]; intros HS.
  - constructor.
  - inversion HS; subst. constructor; [auto|].
    eapply Sublist_Forall; eassumption.
  - inversion HS; subst. auto.
Qed.

Lemma filter_all {A} (f : A -> bool) (l : list A) :
  (forall x, f x = true) -> filter f l = l.
Proof.
  intros H. induction l as [|x l IH]; simpl; [reflexivity|].
  now rewrite H, IH.
Qed.

(** X4: a query made of spaces only is not the empty query: it matches
    every device, and the list then shows all the known devices, without
    the cut to the configured count. *)
Theorem filteredDevices_blank_query (n : nat) (prefs : Preferences) (s : State) :
  searchText s = spaces (S n) ->
  (forall device, fuzzySearch device (searchText s) = true) /\
  filteredDevices prefs s = allDevices s.
Proof.
  intros Hq. split.
  - intros device. rewrite Hq. apply fuzzySearch_blank.
  - unfold filteredDevices. rewrite Hq. simpl JsString.truthy. cbv iota.
    apply filter_all. intros device. apply (fuzzySearch_blank device (S n)).
Qed.

Lemma filteredDevices_blank_query_witness :
  searchText (mkState [Sample.bose; Sample.dev_ab] " " Sample.path false []) =
    spaces 1 /\
  (forall device,
      fuzzySearch device
        (searchText (mkState [Sample.bose; Sample.dev_ab] " " Sample.path
                             false [])) = true) /\
  filteredDevices (mkPreferences 1)
    (mkState [Sample.bose; Sample.dev_ab] " " Sample.path false []) =
  allDevices (mkState [Sample.bose; Sample.dev_ab] " " Sample.path false []).
Proof.
  split; [reflexivity|].
  apply (filteredDevices_blank_query 0 (mkPreferences 1)
           (mkState [Sample.bose; Sample.dev_ab] " " Sample.path false [])).
  reflexivity.
Defined.

(** X5: with the empty query the list shows a front part of the known
    devices, for every integer the preference may hold, the range of the
    manifest not being enforced: a count of zero or less than the negated
    length shows nothing, a negative count leaves that many devices off the
    end, and a count beyond the length shows all. *)
Theorem filteredDevices_count (prefs : Preferences) (s : State) :
  searchText s = "" ->
  (exists rest, allDevices s = (filteredDevices prefs s ++ rest)%list) /\
  Z.of_nat (List.length (filteredDevices prefs s)) =
    (if maxDevices prefs <? 0
     then Z.max (Z.of_nat (List.length (allDevices s)) + maxDevices prefs) 0
     else Z.min (maxDevices prefs) (Z.of_nat (List.length (allDevices s)))).
Proof.
  intros Hq. unfold filteredDevices, JsArray.slice0. rewrite Hq. simpl.
  set (l := allDevices s). set (e := maxDevices prefs).
  set (final := if e <? 0 then Z.max (Z.of_nat (List.length l) + e) 0
                else Z.min e (Z.of_nat (List.length l))).
  split.
  - exists (skipn (Z.to_nat final) l). symmetry. apply firstn_skipn.
  - rewrite length_firstn.
    assert (0 <= final <= Z.of_nat (List.length l)).
    { unfold final. destruct (Z.ltb_spec e 0); lia. }
    lia.
Qed.

Lemma filteredDevices_count_witness :
  searchText Sample.state_bose = "" /\
  (exists rest,
      allDevices Sample.state_bose =
      (filteredDevices (mkPreferences (-1)) Sample.state_bose ++ rest)%list) /\
  Z.of_nat (List.length (filteredDevices (mkPreferences (-1)) Sample.state_bose)) =
    (if maxDevices (mkPreferences (-1)) <? 0
     then Z.max (Z.of_nat (List.length (allDevices Sample.state_bose))
                 + maxDevices (mkPreferences (-1))) 0
     else Z.min (maxDevices (mkPreferences (-1)))
                (Z.of_nat (List.length (allDevices Sample.state_bose)))).
Proof.
  split; [reflexivity|].
  apply (filteredDevices_count (mkPreferences (-1)) Sample.state_bose).
  reflexivity.
Defined.

Lemma filteredDevices_Sublist prefs s :
  Sublist (filteredDevices prefs s) (allDevices s).
Proof.
  unfold filteredDevices, JsArray.slice0.
  destruct (JsString.truthy (searchText s)).
  - apply Sublist_filter.
  - apply Sublist_firstn.
Qed.

Lemma Sublist_In {A} (l m : list A) x : Sublist l m -> In x l -> In x m.
Proof.
  induction 1 as [|y l m _ IH|y l m _ IH]; simpl; intros Hin; auto.
  destruct Hin as [->|Hin]; auto.
Qed.

Lemma Sublist_length {A} (l m : list A) :
  Sublist l m -> (List.length l <= List.length m)%nat.
Proof. induction 1; simpl; lia. Qed.

(** X6: whatever the query and the count, the devices shown are known
    devices, in the order they have in the known list, and no more of them
    than are known: the display leaves devices out and does nothing else. *)
Theorem filteredDevices_sublist (prefs : Preferences) (s : State) :
  Sublist (filteredDevices prefs s) (allDevices s) /\
  (forall d, In d (filteredDevices prefs s) -> In d (allDevices s)) /\
  (List.length (filteredDevices prefs s) <= List.length (allDevices s))%nat.
Proof.
  pose proof (filteredDevices_Sublist prefs s) as H. split; [exact H|]. split.
  - intros d. now apply Sublist_In.
  - now apply Sublist_length.
Qed.

(** ** More on the refresh *)

Lemma mapi_exn_Forall {A B} (f : nat -> A -> Exn + B) (P : B -> Prop) :
  (forall i x y, f i x = inr y -> P y) ->
  forall l i ys, JsArray.mapi_exn f i l = inr ys -> Forall P ys.
Proof.
  intros Hf. induction l as [|x rest IH]; intros i ys H; simpl in H.
  - inversion H. constructor.
  - destruct (f i x) as [e|y] eqn:Ex; [discriminate|].
    destruct (JsArray.mapi_exn f (S i) rest) as [e|ys'] eqn:Er; [discriminate|].
    inversion H; subst. constructor; [now apply Hf with i x | now apply IH with (S i)].
Qed.

Lemma mapi_exn_length {A B} (f : nat -> A -> Exn + B) :
  forall l i ys, JsArray.mapi_exn f i l = inr ys ->
                 List.length ys = List.length l.
Proof.
  intros l i ys H.
  rewrite <- (length_map (fun _ => tt) ys), <- (length_map (fun _ => tt) l).
  f_equal. eapply mapi_exn_map; [|exact H]. reflexivity.
Qed.

Lemma connectedDevice_flags now device d :
  connectedDevice now device = inr d ->
  connected d = true /\ lastConnected d = Some now.
Proof.
  destruct device as [|[n deviceData] rest]; [discriminate|].
  rewrite connectedDevice_entry. now intros [= <-].
Qed.

Lemma disconnectedDevice_flags device d :
  disconnectedDevice device = inr d ->
  connected d = false /\ lastConnected d = None.
Proof.
  destruct device as [|[n deviceData] rest]; [discriminate|].
  rewrite disconnectedDevice_entry. now intros [= <-].
Qed.

Section SortGroups.

Context {A : Type} (cmp : A -> A -> Z).

Lemma insert_app_left x l1 l2 :
  Forall (fun y => cmp x y <= 0) l2 ->
  JsArray.insert cmp x (l1 ++ l2) = (JsArray.insert cmp x l1 ++ l2)%list.
Proof.
  intros H. induction l1 as [|a l1 IH]; simpl.
  - destruct H as [|y l2 Hy _]; simpl; [reflexivity|].
    apply Z.leb_le in Hy. now rewrite Hy.
  - destruct (cmp x a <=? 0); [reflexivity|]. now rewrite IH.
Qed.

(** A list whose front part wholly comes before its back part is sorted
    part by part. *)
Lemma sort_app l1 l2 :
  Forall (fun x => Forall (fun y => cmp x y <= 0) l2) l1 ->
  JsArray.sort cmp (l1 ++ l2) = (JsArray.sort cmp l1 ++ JsArray.sort cmp l2)%list.
Proof.
  induction 1 as [|x l1 Hx _ IH]; [reflexivity|].
  change (JsArray.sort cmp ((x :: l1) ++ l2))
    with (JsArray.insert cmp x (JsArray.sort cmp (l1 ++ l2))).
  rewrite IH. apply insert_app_left.
  eapply Permutation_Forall; [|exact Hx]. apply Permutation_sym, sort_perm.
Qed.

End SortGroups.

Section RefreshMore.

Variable localeCompare : string -> string -> Z.

Local Notation "'refresh'" := (refreshDevices localeCompare).

(** X7: a refresh, whatever the source does, writes no cell but the known
    devices, runs the profiler command and nothing else, sets no timer and
    shows no toast; in particular it leaves the discovered devices as they
    are, also those that have become known. *)
Theorem refresh_frame clock source (s : State) :
  (exists v, state_after (refresh clock source) s = with_allDevices v s) /\
  commands (events_of (refresh clock source) s) = [profiler_command] /\
  timers (events_of (refresh clock source) s) = [] /\
  toasts (events_of (refresh clock source) s) = [].
Proof.
  unfold state_after, events_of, run. rewrite refreshDevices_run.
  assert (Hs : with_allDevices (allDevices s) s = s) by now destruct s.
  destruct source as [|[|data]]; simpl;
    try (split; [exists (allDevices s); now rewrite Hs | repeat split]).
  destruct (normalizeAll clock data); simpl.
  - split; [exists (allDevices s); now rewrite Hs | repeat split].
  - split; [now eexists | repeat split].
Qed.

(** X8: after a refresh that succeeds, and whatever the host collation
    does, the known list is the devices of the connected group followed by
    those of the disconnected group: as many entries as the connected group
    has records come first, each connected and with a time stamp; the rest
    are not connected and have no time stamp. *)
Theorem refresh_connected_first clock data (s : State) :
  succeeded (refresh clock (Returns (Json data))) s ->
  exists section cs ds,
    first_section data = inr section /\
    allDevices (state_after (refresh clock (Returns (Json data))) s) =
      (cs ++ ds)%list /\
    List.length cs = List.length (group_or_empty device_connected section) /\
    List.length ds = List.length (group_or_empty device_not_connected section) /\
    Forall (fun d => connected d = true /\ lastConnected d <> None) cs /\
    Forall (fun d => connected d = false /\ lastConnected d = None) ds.
Proof.
  intros H. apply refresh_succeeded_iff in H.
  destruct H as (data' & devs & [= <-] & H).
  rewrite (refresh_success_state _ _ _ _ _ H).
  destruct (normalizeAll_inr _ _ _ H) as (section & cs & ds & Hs & Hc & Hd & ->).
  assert (Fc : Forall (fun d => connected d = true /\ lastConnected d <> None) cs).
  { eapply mapi_exn_Forall; [|exact Hc]. intros i x y E.
    apply connectedDevice_flags in E. destruct E as [E1 E2].
    split; [exact E1 | now rewrite E2]. }
  assert (Fd : Forall (fun d => connected d = false /\ lastConnected d = None) ds).
  { eapply mapi_exn_Forall; [|exact Hd]. intros i x y E.
    now apply disconnectedDevice_flags in E. }
  exists section, (JsArray.sort (compareDevices localeCompare) cs),
    (JsArray.sort (compareDevices localeCompare) ds).
  split; [exact Hs|]. split.
  - apply sort_app. eapply Forall_impl; [|exact Fc]. intros x [Hx _].
    eapply Forall_impl; [|exact Fd]. intros y [Hy _].
    unfold compareDevices. rewrite Hx, Hy. simpl. lia.
  - rewrite !sort_length, (mapi_exn_length _ _ _ _ Hc), (mapi_exn_length _ _ _ _ Hd).
    repeat split.
    + eapply Permutation_Forall; [|exact Fc]. apply Permutation_sym, sort_perm.
    + eapply Permutation_Forall; [|exact Fd]. apply Permutation_sym, sort_perm.
Qed.

(** X9: a scan that follows a refresh, both succeeding, discovers no
    device under an address that a record of the refreshed source
    carries. *)
Theorem scan_after_refresh clock data scan (s : State) (d : BluetoothDevice) :
  succeeded (refresh clock (Returns (Json data)) ;; startDiscovery scan) s ->
  In d (discoveredDevices
          (state_after (refresh clock (Returns (Json data)) ;;
                        startDiscovery scan) s)) ->
  ~ In (address d) (map record_address (source_records data)).
Proof.
  unfold succeeded, events_of, state_after, run, bind.
  rewrite refreshDevices_run.
  destruct (normalizeAll clock data) as [e|devs] eqn:N.
  - destruct (JsString.truthy (blueutilPath s)) eqn:Hp.
    + rewrite startDiscovery_run by exact Hp.
      destruct scan as [|[|parsed]]; discriminate.
    + rewrite startDiscovery_no_path by exact Hp. discriminate.
  - set (s1 := mkState _ _ _ _ _).
    destruct (JsString.truthy (blueutilPath s)) eqn:Hp.
    + rewrite startDiscovery_run by exact Hp.
      destruct scan as [|[|parsed]]; try discriminate.
      intros _ Hd. simpl in Hd. apply in_map_iff in Hd.
      destruct Hd as (r & <- & Hr). apply filter_In in Hr.
      destruct Hr as [_ Hr]. apply negb_true_iff in Hr. simpl.
      intros Hin. rewrite <- (normalizeAll_addresses _ _ _ N) in Hin.
      assert (Hin' : In (Inquiry.address r)
                       (map address (JsArray.sort (compareDevices localeCompare) devs))).
      { eapply Permutation_in; [|exact Hin].
        apply Permutation_map, Permutation_sym, sort_perm. }
      apply includes_In in Hin'. congruence.
    + rewrite startDiscovery_no_path by exact Hp. discriminate.
Qed.

End RefreshMore.

Lemma refresh_connected_first_witness :
  succeeded (refreshDevices AsciiHost.localeCompare Sample.clock0
               (Returns (Json Sample.doc_case))) Sample.state_bose /\
  exists section cs ds,
    first_section Sample.doc_case = inr section /\
    allDevices (state_after
       (refreshDevices AsciiHost.localeCompare Sample.clock0
          (Returns (Json Sample.doc_case))) Sample.state_bose) =
      (cs ++ ds)%list /\
    List.length cs = List.length (group_or_empty device_connected section) /\
    List.length ds = List.length (group_or_empty device_not_connected section) /\
    Forall (fun d => connected d = true /\ lastConnected d <> None) cs /\
    Forall (fun d => connected d = false /\ lastConnected d = None) ds.
Proof.
  split; [reflexivity|].
  apply (refresh_connected_first AsciiHost.localeCompare Sample.clock0
           Sample.doc_case Sample.state_bose).
  reflexivity.
Defined.

Lemma scan_after_refresh_witness :
  succeeded (refreshDevices AsciiHost.localeCompare Sample.clock0
               (Returns (Json Sample.doc_scenario)) ;;
             startDiscovery Sample.scan_two) Sample.state_bose /\
  In (discoveredDevice (Sample.found "EE:FF" None (Some (-71))))
     (discoveredDevices
        (state_after (refreshDevices AsciiHost.localeCompare Sample.clock0
                        (Returns (Json Sample.doc_scenario)) ;;
                      startDiscovery Sample.scan_two) Sample.state_bose)) /\
  ~ In (address (discoveredDevice (Sample.found "EE:FF" None (Some (-71)))))
       (map record_address (source_records Sample.doc_scenario)).
Proof.
  split; [reflexivity|]. split; [now left|].
  apply (scan_after_refresh AsciiHost.localeCompare Sample.clock0
           Sample.doc_scenario Sample.scan_two Sample.state_bose
           (discoveredDevice (Sample.found "EE:FF" None (Some (-71))))).
  - reflexivity.
  - now left.
Defined.

Section DisplayOrder.

Variable localeCompare : string -> string -> Z.

Hypothesis collation_total :
  forall a b, 0 < localeCompare a b -> localeCompare b a <= 0.
Hypothesis collation_trans :
  forall a b c, localeCompare a b <= 0 -> localeCompare b c <= 0 ->
                localeCompare a c <= 0.

(** X10: after a refresh that succeeds, whatever is typed next and whatever
    the configured count, the devices shown are in the order of the
    comparator of the sort: of two shown devices the earlier one never
    compares after the later one (the host collation being a consistent
    comparison). *)
Theorem display_keeps_sort_order clock source (s : State) q prefs :
  succeeded (refreshDevices localeCompare clock source) s ->
  StronglySorted (fun a b => compareDevices localeCompare a b <= 0)
    (filteredDevices prefs
       (state_after (refreshDevices localeCompare clock source ;;
                     setSearchText q) s)).
Proof.
  intros H. eapply Sublist_StronglySorted; [apply filteredDevices_Sublist|].
  apply refresh_succeeded_iff in H. destruct H as (data & devs & -> & H).
  unfold state_after, run, bind. rewrite refreshDevices_run, H. simpl.
  apply sort_sorted.
  - apply compareDevices_total, collation_total.
  - apply compareDevices_trans, collation_trans.
Qed.

End DisplayOrder.

Lemma display_keeps_sort_order_witness :
  succeeded (refreshDevices AsciiHost.localeCompare Sample.clock0
               (Sample.answers Sample.doc_case)) Sample.state_bose /\
  StronglySorted (fun a b => compareDevices AsciiHost.localeCompare a b <= 0)
    (filteredDevices (mkPreferences 3)
       (state_after (refreshDevices AsciiHost.localeCompare Sample.clock0
                       (Sample.answers Sample.doc_case) ;;
                     setSearchText "e") Sample.state_bose)).
Proof.
  split; [reflexivity|].
  apply (display_keeps_sort_order AsciiHost.localeCompare AsciiHost_total
           AsciiHost_trans Sample.clock0 (Sample.answers Sample.doc_case)
           Sample.state_bose "e" (mkPreferences 3)).
  reflexivity.
Defined.

(** ** More on the discovery scan *)

Lemma map_filter_comm {A B} (f : A -> B) (p : B -> bool) (l : list A) :
  map f (filter (fun x => p (f x)) l) = filter p (map f l).
Proof.
  induction l as [|x l IH]; simpl; [reflexivity|].
  destruct (p (f x)); simpl; now rewrite IH.
Qed.

Lemma or_else_truthy o dflt :
  JsString.truthy dflt = true -> JsString.truthy (JsString.or_else o dflt) = true.
Proof.
  intros H. unfold JsString.or_else. destruct o as [t|]; [|exact H].
  destruct (JsString.truthy t) eqn:E; [exact E | exact H].
Qed.

Lemma of_Z_truthy z : JsString.truthy (JsString.of_Z z) = true.
Proof.
  unfold JsString.of_Z. destruct (Z.to_int z) as [u|u]; simpl; [|reflexivity].
  destruct u; reflexivity.
Qed.

(** X11: a scan that does not go through (the path of the tool is not set,
    the command throws, or its output is not JSON) leaves the discovered
    and the known devices as they were, clears the scanning flag, shows the
    failure toast and logs to the console; and without the path no command
    is run at all. *)
Theorem startDiscovery_failure scan (s : State) :
  logs_error (events_of (startDiscovery scan) s) = true ->
  state_after (startDiscovery scan) s = with_scanning false s /\
  In (Failure, "Failed to scan for devices")
     (toasts (events_of (startDiscovery scan) s)) /\
  commands (events_of (startDiscovery scan) s) =
    (if JsString.truthy (blueutilPath s) then [inquiry_command s] else []).
Proof.
  unfold events_of, state_after, run.
  destruct (JsString.truthy (blueutilPath s)) eqn:Hp.
  - rewrite startDiscovery_run by exact Hp.
    destruct scan as [|[|parsed]]; simpl; try discriminate;
      intros _; repeat split; auto.
  - rewrite startDiscovery_no_path by exact Hp. simpl.
    intros _. repeat split; auto.
Qed.

Lemma startDiscovery_failure_witness :
  logs_error (events_of (startDiscovery (Returns NotJson)) Sample.state_scanning)
    = true /\
  state_after (startDiscovery (Returns NotJson)) Sample.state_scanning =
    with_scanning false Sample.state_scanning /\
  In (Failure, "Failed to scan for devices")
     (toasts (events_of (startDiscovery (Returns NotJson)) Sample.state_scanning)) /\
  commands (events_of (startDiscovery (Returns NotJson)) Sample.state_scanning) =
    (if JsString.truthy (blueutilPath Sample.state_scanning)
     then [inquiry_command Sample.state_scanning] else []).
Proof.
  split; [reflexivity|].
  apply (startDiscovery_failure (Returns NotJson) Sample.state_scanning).
  reflexivity.
Defined.

(** X12: a scan that succeeds replaces the discovered devices by the
    records of this scan whose address is not known, all of them, in the
    order of the output and as often as the output has them (records of
    the scan are not compared with each other), and touches no other cell
    but the scanning flag. *)
Theorem startDiscovery_replaces scan (s : State) :
  succeeded (startDiscovery scan) s ->
  exists parsed,
    scan = Returns (Json parsed) /\
    state_after (startDiscovery scan) s =
      with_scanning false
        (with_discovered (discoveredDevices (state_after (startDiscovery scan) s)) s) /\
    map address (discoveredDevices (state_after (startDiscovery scan) s)) =
      filter (fun a => negb (JsArray.includes (map address (allDevices s)) a))
             (map Inquiry.address parsed).
Proof.
  intros Hok. destruct (startDiscovery_succeeded _ _ Hok) as (Hp & parsed & ->).
  exists parsed. split; [reflexivity|].
  unfold state_after, run. rewrite startDiscovery_run by exact Hp. simpl.
  split; [reflexivity|].
  rewrite map_map. simpl.
  apply (map_filter_comm Inquiry.address
           (fun a => negb (JsArray.includes (map address (allDevices s)) a))).
Qed.

Lemma startDiscovery_replaces_witness :
  succeeded (startDiscovery Sample.scan_two) Sample.state_bose /\
  exists parsed,
    Sample.scan_two = Returns (Json parsed) /\
    state_after (startDiscovery Sample.scan_two) Sample.state_bose =
      with_scanning false
        (with_discovered
           (discoveredDevices
              (state_after (startDiscovery Sample.scan_two) Sample.state_bose))
           Sample.state_bose) /\
    map address (discoveredDevices
                   (state_after (startDiscovery Sample.scan_two) Sample.state_bose)) =
      filter (fun a => negb (JsArray.includes
                               (map address (allDevices Sample.state_bose)) a))
             (map Inquiry.address parsed).
Proof.
  split; [reflexivity|].
  apply (startDiscovery_replaces Sample.scan_two Sample.state_bose).
  reflexivity.
Defined.

(** X13: every device a successful scan discovers is not connected, has
    the type [New Device], a name that is not empty (a missing or empty
    name becomes [Unknown Device]) and no time stamp, battery level, vendor,
    product or firmware. *)
Theorem discovered_shape scan (s : State) :
  succeeded (startDiscovery scan) s ->
  Forall (fun d => connected d = false /\
                   type d = Some "New Device" /\
                   JsString.truthy (name d) = true /\
                   lastConnected d = None /\ batteryLevel d = None /\
                   vendorId d = None /\ productId d = None /\
                   firmwareVersion d = None)
         (discoveredDevices (state_after (startDiscovery scan) s)).
Proof.
  intros Hok. destruct (startDiscovery_succeeded _ _ Hok) as (Hp & parsed & ->).
  unfold state_after, run. rewrite startDiscovery_run by exact Hp. simpl.
  apply Forall_forall. intros d Hd. apply in_map_iff in Hd.
  destruct Hd as (r & <- & _). simpl.
  repeat split. now apply or_else_truthy.
Qed.

Lemma discovered_shape_witness :
  succeeded (startDiscovery Sample.scan_two) Sample.state_bose /\
  Forall (fun d => connected d = false /\
                   type d = Some "New Device" /\
                   JsString.truthy (name d) = true /\
                   lastConnected d = None /\ batteryLevel d = None /\
                   vendorId d = None /\ productId d = None /\
                   firmwareVersion d = None)
         (discoveredDevices
            (state_after (startDiscovery Sample.scan_two) Sample.state_bose)).
Proof.
  split; [reflexivity|].
  apply (discovered_shape Sample.scan_two Sample.state_bose). reflexivity.
Defined.

(** X14: the item of a discovered device shows a signal strength exactly
    when the scan reported one, a strength of zero included: the number is
    turned into text before it is tested. *)
Theorem discovered_signal_shown (device : Inquiry.record) :
  accessory_text (discoveredItem (discoveredDevice device)) =
  option_map (fun z => "Signal: " ++ JsString.of_Z z ++ "dBm")
             (Inquiry.rssi device).
Proof.
  unfold discoveredItem, discoveredDevice. simpl.
  destruct (Inquiry.rssi device) as [z|]; simpl; [|reflexivity].
  now rewrite of_Z_truthy.
Qed.

(** ** Pairing and forgetting *)

Lemma strict_neq_true a b : strict_neq a b = true <-> a <> b.
Proof.
  unfold strict_neq. rewrite negb_true_iff. split.
  - intros H E. subst b.
    assert (T : JsArray.includes [a] a = true) by (apply includes_In; now left).
    congruence.
  - intros N. destruct (JsArray.includes [b] a) eqn:E; [|reflexivity].
    apply includes_In in E. destruct E as [E|[]]. congruence.
Qed.

Section PairForget.

Variable localeCompare : string -> string -> Z.

Local Notation "'refresh'" := (refreshDevices localeCompare).
Local Notation "'pair'" := (pairDevice localeCompare).
Local Notation "'forget'" := (forgetDevice localeCompare).

(** The cells and the trace a refresh ends with, its result aside. *)
Lemma refresh_returns clock source s t :
  refresh clock source s t =
  (inr tt, snd (fst (refresh clock source s t)), snd (refresh clock source s t)).
Proof.
  rewrite refreshDevices_run. destruct source as [|[|data]]; try reflexivity.
  destruct (normalizeAll clock data); reflexivity.
Qed.

Lemma refresh_trace clock source s t :
  snd (refresh clock source s t) =
  (t ++ snd (refresh clock source s []))%list.
Proof.
  rewrite !refreshDevices_run. destruct source as [|[|data]]; try reflexivity.
  destruct (normalizeAll clock data); reflexivity.
Qed.

Lemma refresh_state clock source s t :
  snd (fst (refresh clock source s t)) = state_after (refresh clock source) s.
Proof.
  unfold state_after, run. rewrite !refreshDevices_run.
  destruct source as [|[|data]]; try reflexivity.
  destruct (normalizeAll clock data); reflexivity.
Qed.

Lemma refresh_effects clock source s :
  discoveredDevices (state_after (refresh clock source) s) = discoveredDevices s /\
  commands (snd (refresh clock source s [])) = [profiler_command] /\
  toasts (snd (refresh clock source s [])) = [].
Proof.
  unfold state_after, run. rewrite refreshDevices_run.
  destruct source as [|[|data]]; try (repeat split; reflexivity).
  destruct (normalizeAll clock data); repeat split; reflexivity.
Qed.

(** X15: when the pair command returns, [pairDevice] re-fetches the known
    devices at once, then drops from the discovered devices every entry
    with the paired address and keeps the others in their order, and shows
    the success toast; all this also when the re-fetch itself fails, which
    is only logged. *)
Theorem pairDevice_success addr label (u : unit) clock source (s : State) :
  state_after (pair addr label (Returns u) clock source) s =
    with_discovered
      (filter (fun d => strict_neq (address d) addr) (discoveredDevices s))
      (state_after (refresh clock source) s) /\
  Forall (fun d => address d <> addr)
    (discoveredDevices (state_after (pair addr label (Returns u) clock source) s)) /\
  commands (events_of (pair addr label (Returns u) clock source) s) =
    [pair_command s addr; profiler_command] /\
  toasts (events_of (pair addr label (Returns u) clock source) s) =
    [(Animated, "Pairing with " ++ label ++ "...");
     (Success, "Paired with " ++ label)].
Proof.
  assert (Hframe : discoveredDevices (state_after (refresh clock source) s) =
                   discoveredDevices s).
  { apply refresh_effects. }
  assert (Hst : state_after (pair addr label (Returns u) clock source) s =
    with_discovered
      (filter (fun d => strict_neq (address d) addr) (discoveredDevices s))
      (state_after (refresh clock source) s)).
  { unfold state_after at 1. unfold run, pairDevice, try_catch, bind, get,
      showToast, execSync, emit, ret, setDiscoveredDevices, modify. simpl.
    rewrite refresh_returns, refresh_state. simpl. unfold with_discovered.
    now rewrite Hframe. }
  split; [exact Hst|]. split.
  - rewrite Hst. simpl. apply Forall_forall. intros d Hd.
    apply filter_In in Hd. now apply strict_neq_true.
  - unfold events_of, run, pairDevice, try_catch, bind, get, showToast,
      execSync, emit, ret, setDiscoveredDevices, modify. simpl.
    rewrite refresh_returns, refresh_trace. simpl.
    destruct (refresh_effects clock source s) as (_ & Hc & Ht).
    unfold commands, toasts in *.
    rewrite !flat_map_app, Hc, Ht. split; reflexivity.
Qed.

(** X16: when the pair command throws, [pairDevice] changes no cell, does
    not re-fetch, keeps the discovered entry and shows the failure toast.
    The command is run whether or not the path of the tool is set. *)
Theorem pairDevice_failure addr label clock source (s : State) :
  state_after (pair addr label Fails clock source) s = s /\
  events_of (pair addr label Fails clock source) s =
    [ShowToast Animated ("Pairing with " ++ label ++ "...");
     ExecSync (pair_command s addr);
     ShowToast Failure ("Failed to pair with " ++ label)].
Proof. split; reflexivity. Qed.

(** X17: [forgetDevice] asks first; unless the answer is yes and the
    unpair command returns, no cell changes and nothing is re-fetched: no
    command at all is run without the yes, and a command that throws gives
    the failure toast. *)
Theorem forgetDevice_refused addr label confirmed unpair clock source (s : State) :
  confirmed = false \/ unpair = Fails ->
  state_after (forget addr label confirmed unpair clock source) s = s /\
  commands (events_of (forget addr label confirmed unpair clock source) s) =
    (if confirmed then [unpair_command addr] else []) /\
  toasts (events_of (forget addr label confirmed unpair clock source) s) =
    (if confirmed then [(Failure, "Failed to forget device")] else []).
Proof.
  intros [->| ->].
  - repeat split.
  - destruct confirmed; repeat split.
Qed.

(** X18: with the yes and an unpair command that returns, [forgetDevice]
    shows the success toast and then re-fetches: the cells end as a refresh
    leaves them, the discovered devices untouched. The command names the
    tool without the path found at start-up. *)
Theorem forgetDevice_success addr label (u : unit) clock source (s : State) :
  state_after (forget addr label true (Returns u) clock source) s =
    state_after (refresh clock source) s /\
  commands (events_of (forget addr label true (Returns u) clock source) s) =
    [unpair_command addr; profiler_command] /\
  toasts (events_of (forget addr label true (Returns u) clock source) s) =
    [(Success, "Device forgotten")] /\
  discoveredDevices (state_after (forget addr label true (Returns u) clock source) s) =
    discoveredDevices s.
Proof.
  assert (Hst : state_after (forget addr label true (Returns u) clock source) s =
                state_after (refresh clock source) s).
  { unfold state_after at 1. unfold run, forgetDevice, try_catch, bind,
      showToast, execSync, emit, ret. simpl.
    rewrite refresh_returns, refresh_state. reflexivity. }
  split; [exact Hst|].
  destruct (refresh_effects clock source s) as (Hv & Hc & Ht).
  repeat split.
  - unfold events_of, run, forgetDevice, try_catch, bind, showToast, execSync,
      emit, ret. simpl. rewrite refresh_returns, refresh_trace. simpl.
    unfold commands in *. now rewrite ?flat_map_app, Hc.
  - unfold events_of, run, forgetDevice, try_catch, bind, showToast, execSync,
      emit, ret. simpl. rewrite refresh_returns, refresh_trace. simpl.
    unfold toasts in *. now rewrite ?flat_map_app, Ht.
  - now rewrite Hst.
Qed.

End PairForget.

Lemma forgetDevice_refused_witness :
  (false = false \/ @Fails unit = Fails) /\
  state_after (forgetDevice AsciiHost.localeCompare (Some "AA:BB") "Bose QC35"
                 false Fails Sample.clock0 (Sample.answers Sample.doc_scenario))
              Sample.state_bose = Sample.state_bose /\
  commands (events_of
    (forgetDevice AsciiHost.localeCompare (Some "AA:BB") "Bose QC35"
       false Fails Sample.clock0 (Sample.answers Sample.doc_scenario))
    Sample.state_bose) = (if false then [unpair_command (Some "AA:BB")] else []) /\
  toasts (events_of
    (forgetDevice AsciiHost.localeCompare (Some "AA:BB") "Bose QC35"
       false Fails Sample.clock0 (Sample.answers Sample.doc_scenario))
    Sample.state_bose) =
    (if false then [(Failure, "Failed to forget device")] else []).
Proof.
  split; [now left|].
  apply (forgetDevice_refused AsciiHost.localeCompare (Some "AA:BB") "Bose QC35"
           false Fails Sample.clock0 (Sample.answers Sample.doc_scenario)
           Sample.state_bose).
  now left.
Defined.

(** ** Start-up *)

Lemma trimStart_first s c :
  first_char (JsTrim.trimStart s) = Some c -> JsString.is_whitespace c = false.
Proof.
  induction s as [|a r IH]; simpl; [discriminate|].
  destruct (JsString.is_whitespace a) eqn:E; [exact IH|].
  simpl. now intros [= <-].
Qed.

Lemma trimEnd_shape c r :
  JsTrim.trimEnd (String c r) = EmptyString \/
  exists r', JsTrim.trimEnd (String c r) = String c r'.
Proof.
  simpl. destruct (JsTrim.trimEnd r).
  - destruct (JsString.is_whitespace c); [now left | right; now eexists].
  - right. now eexists.
Qed.

Lemma trimEnd_first s c :
  first_char (JsTrim.trimEnd s) = Some c -> first_char s = Some c.
Proof.
  destruct s as [|a r]; [discriminate|].
  destruct (trimEnd_shape a r) as [->|[r' ->]]; [discriminate|].
  simpl. auto.
Qed.

Lemma trimEnd_last s c :
  last_char (JsTrim.trimEnd s) = Some c -> JsString.is_whitespace c = false.
Proof.
  induction s as [|a r IH]; [discriminate|].
  simpl. destruct (JsTrim.trimEnd r) as [|c' r'] eqn:E.
  - destruct (JsString.is_whitespace a) eqn:Ea; [discriminate|].
    simpl. now intros [= <-].
  - intros H. apply IH. exact H.
Qed.

Lemma trim_no_outer_whitespace s : no_outer_whitespace (JsTrim.trim s).
Proof.
  unfold JsTrim.trim. split; intros c H.
  - apply trimEnd_first in H. now apply trimStart_first in H.
  - now apply trimEnd_last in H.
Qed.

Section MountProperties.

Variable localeCompare : string -> string -> Z.

Local Notation "'mount'" := (mountEffect localeCompare).

(** X19: when the tool is not found at start-up (the lookup throws, or
    prints nothing but white space), the known devices are not fetched: the
    lookup is the only command run, no cell changes, and the console gets
    the hint to install the tool. *)
Theorem mount_tool_absent which clock source (s : State) :
  (which = Fails \/
   exists output, which = Returns output /\ JsTrim.trim output = "") ->
  state_after (mount which clock source) s = s /\
  events_of (mount which clock source) s =
    [ExecSync which_command; ConsoleError mount_error].
Proof.
  intros [->|(output & -> & E)].
  - split; reflexivity.
  - unfold state_after, events_of, run, mountEffect, try_catch, bind, execSync,
      emit, throw, ret, console_error. simpl. rewrite E. split; reflexivity.
Qed.

(** X20: when the lookup prints a path, start-up stores it without the
    white space around it (the line end of the output is gone) and then
    fetches the known devices: the cells end as a refresh leaves them from
    the cells with the path set, and the stored path is not empty, so the
    checks of the toggle and of the scan let their commands run. *)
Theorem mount_tool_found output clock source (s : State) :
  JsString.truthy (JsTrim.trim output) = true ->
  state_after (mount (Returns output) clock source) s =
    state_after (refreshDevices localeCompare clock source)
                (with_path (JsTrim.trim output) s) /\
  blueutilPath (state_after (mount (Returns output) clock source) s) =
    JsTrim.trim output /\
  no_outer_whitespace
    (blueutilPath (state_after (mount (Returns output) clock source) s)) /\
  commands (events_of (mount (Returns output) clock source) s) =
    [which_command; profiler_command].
Proof.
  intros Hp.
  assert (Hrun : forall s0 t,
             refreshDevices localeCompare clock source s0 t =
             (inr tt, state_after (refreshDevices localeCompare clock source) s0,
              (t ++ snd (refreshDevices localeCompare clock source s0 []))%list)).
  { intros s0 t. rewrite (refresh_returns localeCompare clock source s0 t).
    now rewrite refresh_state, refresh_trace. }
  assert (Hst : state_after (mount (Returns output) clock source) s =
                state_after (refreshDevices localeCompare clock source)
                            (with_path (JsTrim.trim output) s)).
  { unfold state_after at 1. unfold run, mountEffect, try_catch, bind, execSync,
      emit, throw, ret, setBlueutilPath, modify. simpl. rewrite Hp. simpl.
    now rewrite Hrun. }
  assert (Hpath : blueutilPath (state_after (mount (Returns output) clock source) s) =
                  JsTrim.trim output).
  { rewrite Hst. unfold state_after, run. rewrite refreshDevices_run.
    destruct source as [|[|data]]; try reflexivity.
    destruct (normalizeAll clock data); reflexivity. }
  split; [exact Hst|]. split; [exact Hpath|]. split.
  - rewrite Hpath. apply trim_no_outer_whitespace.
  - unfold events_of, run, mountEffect, try_catch, bind, execSync,
      emit, throw, ret, setBlueutilPath, modify. simpl. rewrite Hp. simpl.
    rewrite Hrun. simpl.
    destruct (refresh_effects localeCompare clock source
                (mkState (allDevices s) (searchText s) (JsTrim.trim output)
                         (isScanning s) (discoveredDevices s))) as (_ & Hc & _).
    unfold commands in *. simpl. now rewrite Hc.
Qed.

End MountProperties.

Lemma mount_tool_absent_witness :
  (Returns (String (ascii_of_nat 10) EmptyString) = Fails \/
   exists output, Returns (String (ascii_of_nat 10) EmptyString) = Returns output /\
                  JsTrim.trim output = "") /\
  state_after (mountEffect AsciiHost.localeCompare
                 (Returns (String (ascii_of_nat 10) EmptyString)) Sample.clock0
                 (Sample.answers Sample.doc_scenario))
              Sample.state_bose = Sample.state_bose /\
  events_of (mountEffect AsciiHost.localeCompare
               (Returns (String (ascii_of_nat 10) EmptyString)) Sample.clock0
               (Sample.answers Sample.doc_scenario))
            Sample.state_bose =
    [ExecSync which_command; ConsoleError mount_error].
Proof.
  assert (H : Returns (String (ascii_of_nat 10) EmptyString) = Fails \/
              exists output,
                Returns (String (ascii_of_nat 10) EmptyString) = Returns output /\
                JsTrim.trim output = "").
  { right. eexists. split; reflexivity. }
  split; [exact H|].
  apply (mount_tool_absent AsciiHost.localeCompare
           (Returns (String (ascii_of_nat 10) EmptyString)) Sample.clock0
           (Sample.answers Sample.doc_scenario) Sample.state_bose).
  exact H.
Defined.

Lemma mount_tool_found_witness :
  JsString.truthy
    (JsTrim.trim (Sample.path ++ String (ascii_of_nat 10) EmptyString)) = true /\
  state_after (mountEffect AsciiHost.localeCompare
                 (Returns (Sample.path ++ String (ascii_of_nat 10) EmptyString))
                 Sample.clock0 (Sample.answers Sample.doc_scenario))
              (mkState [] "" "" false []) =
    state_after (refreshDevices AsciiHost.localeCompare Sample.clock0
                   (Sample.answers Sample.doc_scenario))
                (with_path
                   (JsTrim.trim (Sample.path ++ String (ascii_of_nat 10) EmptyString))
                   (mkState [] "" "" false [])) /\
  blueutilPath
    (state_after (mountEffect AsciiHost.localeCompare
                    (Returns (Sample.path ++ String (ascii_of_nat 10) EmptyString))
                    Sample.clock0 (Sample.answers Sample.doc_scenario))
                 (mkState [] "" "" false [])) =
    JsTrim.trim (Sample.path ++ String (ascii_of_nat 10) EmptyString) /\
  no_outer_whitespace
    (blueutilPath
       (state_after (mountEffect AsciiHost.localeCompare
                       (Returns (Sample.path ++ String (ascii_of_nat 10) EmptyString))
                       Sample.clock0 (Sample.answers Sample.doc_scenario))
                    (mkState [] "" "" false []))) /\
  commands
    (events_of (mountEffect AsciiHost.localeCompare
                  (Returns (Sample.path ++ String (ascii_of_nat 10) EmptyString))
                  Sample.clock0 (Sample.answers Sample.doc_scenario))
               (mkState [] "" "" false [])) =
    [which_command; profiler_command].
Proof.
  split; [reflexivity|].
  apply (mount_tool_found AsciiHost.localeCompare
           (Sample.path ++ String (ascii_of_nat 10) EmptyString) Sample.clock0
           (Sample.answers Sample.doc_scenario) (mkState [] "" "" false [])).
  reflexivity.
Defined.

Example mount_sample :
  blueutilPath
    (state_after (mountEffect AsciiHost.localeCompare
                    (Returns (Sample.path ++ String (ascii_of_nat 10) EmptyString))
                    Sample.clock0 (Sample.answers Sample.doc_scenario))
                 (mkState [] "" "" false [])) = "/opt/homebrew/bin/blueutil".
Proof. reflexivity. Qed.

(** ** The earlier version *)

Lemma Eb_connectedDevice now device :
  Eb.connectedDevice now device =
  match connectedDevice now device with
  | inl e => inl e
  | inr d => inr (earlier_fields d)
  end.
Proof.
  destruct device as [|[n deviceData] rest]; [reflexivity|].
  unfold Eb.connectedDevice, connectedDevice. simpl.
  now rewrite String.eqb_refl.
Qed.

Lemma Eb_disconnectedDevice device :
  Eb.disconnectedDevice device =
  match disconnectedDevice device with
  | inl e => inl e
  | inr d => inr (earlier_fields d)
  end.
Proof.
  destruct device as [|[n deviceData] rest]; [reflexivity|].
  unfold Eb.disconnectedDevice, disconnectedDevice. simpl.
  now rewrite String.eqb_refl.
Qed.

Lemma mapi_exn_post {A B} (f g : nat -> A -> Exn + B) (h : B -> B) :
  (forall i x, g i x = match f i x with inl e => inl e | inr y => inr (h y) end) ->
  forall l i,
    JsArray.mapi_exn g i l =
    match JsArray.mapi_exn f i l with
    | inl e => inl e
    | inr ys => inr (map h ys)
    end.
Proof.
  intros Hg. induction l as [|x rest IH]; intros i; simpl; [reflexivity|].
  rewrite Hg, IH. destruct (f i x); [reflexivity|].
  destruct (JsArray.mapi_exn f (S i) rest); reflexivity.
Qed.

Lemma Eb_normalizeAll clock data :
  Eb.normalizeAll clock data =
  match normalizeAll clock data with
  | inl e => inl e
  | inr devs => inr (map earlier_fields devs)
  end.
Proof.
  unfold Eb.normalizeAll, normalizeAll.
  destruct (first_section data) as [e|section]; [reflexivity|].
  rewrite (mapi_exn_post (fun i => connectedDevice (clock i))
             (fun i => Eb.connectedDevice (clock i)) earlier_fields)
    by (intros; apply Eb_connectedDevice).
  rewrite (mapi_exn_post (fun _ => disconnectedDevice)
             (fun _ => Eb.disconnectedDevice) earlier_fields)
    by (intros; apply Eb_disconnectedDevice).
  destruct (JsArray.mapi_exn _ _ (group_or_empty device_connected section));
    [reflexivity|].
  destruct (JsArray.mapi_exn _ _ (group_or_empty device_not_connected section));
    [reflexivity|].
  now rewrite map_app.
Qed.

Lemma Eb_refreshDevices_run localeCompare clock source s t :
  Eb.refreshDevices localeCompare clock source s t =
  match source with
  | Returns (Json data) =>
      match Eb.normalizeAll clock data with
      | inr devs =>
          (inr tt,
           mkState (JsArray.sort (compareDevices localeCompare) devs)
                   (searchText s) (blueutilPath s) (isScanning s)
                   (discoveredDevices s),
           (t ++ [ExecSync profiler_command])%list)
      | inl _ =>
          (inr tt, s,
           (t ++ [ExecSync profiler_command; ConsoleError fetch_error])%list)
      end
  | _ => (inr tt, s,
          (t ++ [ExecSync profiler_command; ConsoleError fetch_error])%list)
  end.
Proof.
  unfold Eb.refreshDevices, try_catch, bind, execSync, JSON_parse, lift,
    setAllDevices, modify, console_error, emit, ret, throw.
  destruct source as [|[|data]]; simpl; try (now rewrite <- app_assoc).
  destruct (Eb.normalizeAll clock data); simpl;
    [now rewrite <- app_assoc | reflexivity].
Qed.

(** X21: on every source output the refresh of the earlier version runs
    the same command and logs the same as that of the later version; where
    the refresh fails both keep the known devices, and where it succeeds
    the earlier version's list is the later version's list, device by
    device in the same order, without the four fields added later. *)
Theorem Eb_refresh_agrees localeCompare clock source (s : State) :
  events_of (Eb.refreshDevices localeCompare clock source) s =
    events_of (refreshDevices localeCompare clock source) s /\
  allDevices (state_after (Eb.refreshDevices localeCompare clock source) s) =
    (if logs_error (events_of (refreshDevices localeCompare clock source) s)
     then allDevices s
     else map earlier_fields
            (allDevices (state_after
                           (refreshDevices localeCompare clock source) s))).
Proof.
  unfold events_of, state_after, run.
  rewrite Eb_refreshDevices_run, refreshDevices_run.
  destruct source as [|[|data]]; try (split; reflexivity).
  rewrite Eb_normalizeAll.
  destruct (normalizeAll clock data) as [e|devs]; [split; reflexivity|].
  split; [reflexivity|]. simpl.
  apply sort_map. reflexivity.
Qed.

Example Eb_refresh_sample :
  allDevices (state_after
    (Eb.refreshDevices AsciiHost.localeCompare Sample.clock0
       (Sample.answers
          (Sample.doc [[("Pods", mkRaw (Some "01") (Some "Headphones")
                                       (Some "80%") (Some "-50") (Some "0x004C")
                                       (Some "0x2002") (Some "1.2"))]] [])))
    Sample.state_bose) =
  [mkDevice "Pods" (Some "01") true (Some 1700000000000) (Some "Headphones")
            (Some "80%") None None None None].
Proof. reflexivity. Qed.

(** ** Empty texts in the rendered item *)

(** X22: a type, battery level, signal or firmware text that is present
    but empty counts as absent everywhere it is read: the item rendered for
    the device and the outcome of every search are the same as for the
    device without these fields (the subtitle falls back to [Unknown
    Device], the accessory text leaves the part out). *)
Theorem empty_fields_count_as_absent (device : BluetoothDevice) :
  pairedItem (without_empty_fields device) = pairedItem device /\
  forall q, fuzzySearch (without_empty_fields device) q = fuzzySearch device q.
Proof.
  destruct device as [n a c lc ty bl rs vi pi fw].
  split.
  - unfold pairedItem, without_empty_fields. simpl.
    destruct ty as [[|? ?]|], bl as [[|? ?]|], rs as [[|? ?]|], fw as [[|? ?]|];
      reflexivity.
  - intros q. unfold fuzzySearch, without_empty_fields. simpl.
    destruct ty as [[|? ?]|]; reflexivity.
Qed.

Example pairedItem_sample :
  accessory_text
    (pairedItem (mkDevice "Pods" (Some "01") true None (Some "") (Some "80%")
                          (Some "") None None (Some "1.2"))) =
    Some (JsString.join " • " ["Connected"; "Battery: 80%"; "FW: 1.2"]) /\
  subtitle
    (pairedItem (mkDevice "Pods" (Some "01") true None (Some "") (Some "80%")
                          (Some "") None None (Some "1.2"))) = "Unknown Device".
Proof. split; reflexivity. Qed.

(** ** Scans in a session *)

Section ScanSessions.

Variable localeCompare : string -> string -> Z.

Local Notation "'refresh'" := (refreshDevices localeCompare).











End ScanSessions.

(** A session with two scan requests in a row: both scans run, the second
    when the first has returned, and the flag is clear before, between and
    after. *)
Example session_two_scans :
  map isScanning
      [session_cells AsciiHost.localeCompare
         (Returns Sample.path) Sample.clock0 (Sample.answers Sample.doc_scenario)
         [];
       session_cells AsciiHost.localeCompare
         (Returns Sample.path) Sample.clock0 (Sample.answers Sample.doc_scenario)
         [ScanAction Sample.scan_two];
       session_cells AsciiHost.localeCompare
         (Returns Sample.path) Sample.clock0 (Sample.answers Sample.doc_scenario)
         [ScanAction Sample.scan_two; ScanAction Sample.scan_two]] =
  [false; false; false] /\
  map (fun d => address d)
      (discoveredDevices
         (session_cells AsciiHost.localeCompare
            (Returns Sample.path) Sample.clock0
            (Sample.answers Sample.doc_scenario)
            [ScanAction Sample.scan_two; ScanAction Sample.scan_two])) =
  [Some "EE:FF"].
Proof. split; reflexivity. Qed.
